(** * NHL weekly pick tracker: a shallow embedding of [nhl_pick_app.py]

    The script keeps two spreadsheet tables, "NHL_Pick_Data" and
    "NHL_Schedule".  Every cell read by [get_all_values] is a string, so a
    table is a list of records of strings, in row order; the header row is
    the record type itself.  [picks_sheet.update] rewrites the header and
    every row of the frame, and no operation removes a row, so the sheet
    after an operation is exactly the frame it wrote: each mutator is a
    function from the table it loaded to the table it stored.

    The accuracy figures are binary64 numbers in the script; they are
    binary64 numbers here too (the kernel's primitive floats), so that the
    figures can be computed and compared with their exact counterparts. *)

From Stdlib Require Import List String Ascii Bool Arith ZArith Lia.
From Stdlib Require Import Floats Uint63 OrderedTypeEx Sorted DecimalString.
From Stdlib Require Import Permutation.
Import ListNotations.
Open Scope string_scope.
Open Scope list_scope.

(** ** The picks table *)

Module Picks.

(** One data row of "NHL_Pick_Data":
    columns User, Week, Date, Game, Pick, Winner. *)
Record row : Type := mk {
  User : string;
  Week : string;
  Date : string;
  Game : string;
  Pick : string;
  Winner : string
}.

(** [df.loc[mask, "Pick"] = pick] on one row. *)
Definition set_Pick (pick : string) (r : row) : row :=
  mk (User r) (Week r) (Date r) (Game r) pick (Winner r).

(** [df.loc[mask, "Winner"] = winner] on one row. *)
Definition set_Winner (winner : string) (r : row) : row :=
  mk (User r) (Week r) (Date r) (Game r) (Pick r) winner.

End Picks.

Definition picks_df : Type := list Picks.row.

(** [df.loc[mask, col] = v]: the rows selected by the mask are rewritten in
    place, the others and the row order are kept. *)
Definition loc_set (mask : Picks.row -> bool) (f : Picks.row -> Picks.row)
    (df : picks_df) : picks_df :=
  map (fun r => if mask r then f r else r) df.

(** The mask [exists] of [save_pick]:
    [(df["User"]==user) & (df["Week"]==week) & (df["Game"]==game)]. *)
Definition exists_mask (user week game : string) (r : Picks.row) : bool :=
  (Picks.User r =? user) && (Picks.Week r =? week) && (Picks.Game r =? game).

(** [save_pick(user, week, date, game, pick)], from the loaded table to the
    table written back. *)
Definition save_pick (user week date game pick : string) (df : picks_df)
    : picks_df :=
  if existsb (exists_mask user week game) df
  then loc_set (exists_mask user week game) (Picks.set_Pick pick) df
  else df ++ [Picks.mk user week date game pick ""].

(** [save_winner(game, winner)]: the mask is [df["Game"]==game] alone. *)
Definition save_winner (game winner : string) (df : picks_df) : picks_df :=
  loc_set (fun r => Picks.Game r =? game) (Picks.set_Winner winner) df.

(** Number of rows of the table stored under a (User, Week, Game) key. *)
Definition rows_for (user week game : string) (df : picks_df) : nat :=
  List.length (filter (exists_mask user week game) df).

(** The uniqueness invariant of the picks table. *)
Definition unique_picks (df : picks_df) : Prop :=
  forall user week game, rows_for user week game df <= 1.

(** The same invariant as a check that runs: no row shares its key with a
    later row. *)
Fixpoint unique_picksb (df : picks_df) : bool :=
  match df with
  | [] => true
  | r :: rest =>
      negb (existsb (exists_mask (Picks.User r) (Picks.Week r) (Picks.Game r))
              rest)
      && unique_picksb rest
  end.

(** ** The winner select box (step 2 of the page) *)

(** [options.index(x)], when [x in options]. *)
Fixpoint index (x : string) (options : list string) : option nat :=
  match options with
  | [] => None
  | o :: rest =>
      if o =? x then Some 0
      else match index x rest with Some i => Some (S i) | None => None end
  end.

(** [existing_winner[0] if len(existing_winner)>0 else ""] where
    [existing_winner] lists the distinct Winner cells of the rows of the
    game, in row order: the Winner of the first such row. *)
Definition current_winner (df_all : picks_df) (game : string) : string :=
  match filter (fun r => Picks.Game r =? game) df_all with
  | r :: _ => Picks.Winner r
  | [] => ""
  end.

(** The [index=] argument of the select box over [[""] + options]. *)
Definition selectbox_index (options : list string) (current : string) : nat :=
  match index current options with Some i => i + 1 | None => 0 end.

(** The entry the select box shows before the admin touches it. *)
Definition displayed_winner (options : list string) (current : string)
    : string :=
  nth (selectbox_index options current) ("" :: options) "".

(** [if winner != current_winner and winner != "": save_winner(game, winner)].
    [Some df'] is a write of [df'] to the sheet, [None] is no write. *)
Definition winner_changed (game winner current : string) (df : picks_df)
    : option picks_df :=
  if negb (winner =? current) && negb (winner =? "")
  then Some (save_winner game winner df)
  else None.

(** ** Dates *)

(** A [datetime.date] is its proleptic Gregorian ordinal ([toordinal]);
    [d + timedelta(days=n)] is [d + n] and the order of dates is the order
    of ordinals.  pandas only yields dates between 1677 and 2262, so no
    sum below leaves the range of [datetime.date]. *)
Definition date : Type := Z.

(** [datetime.date(y, m, d).toordinal()]. *)
Definition ymd (y m d : Z) : date :=
  (let y' := if m <=? 2 then y - 1 else y in
   let era := y' / 400 in
   let yoe := y' - era * 400 in
   let mp := (m + 9) mod 12 in
   let doy := (153 * mp + 2) / 5 + d - 1 in
   let doe := yoe * 365 + yoe / 4 - yoe / 100 + doy in
   era * 146097 + doe - 305)%Z.

(** ** The schedule table *)

Module Schedule.

(** One data row of "NHL_Schedule": columns Week, WeekStartDate, Date,
    Game, Home, Away.  The frame is taken as the script uses it, after
    [pd.to_datetime(..., errors="coerce").dt.date] has replaced the
    WeekStartDate column: a cell is a date, or [None] for the [NaT] of a
    cell pandas could not parse. *)
Record row : Type := mk {
  Week : string;
  WeekStartDate : option date;
  Date : string;
  Game : string;
  Home : string;
  Away : string
}.

End Schedule.

Definition schedule_df : Type := list Schedule.row.

(** ** Results of the script's steps *)

(** The exceptions the steps below can raise. *)
Inductive exn : Type := IndexError | TypeError.

Inductive result (A : Type) : Type :=
| Ok (a : A)
| Raise (e : exn).
Arguments Ok {A} a.
Arguments Raise {A} e.

(** ** Determining the current week *)

(** The mask [schedule_df["WeekStartDate"] <= today]; a [NaT] cell
    compares false. *)
Definition le_today (today : date) (r : Schedule.row) : bool :=
  match Schedule.WeekStartDate r with
  | Some d => (d <=? today)%Z
  | None => false
  end.

Definition past_weeks (today : date) (df : schedule_df) : schedule_df :=
  filter (le_today today) df.

(** [Series.max()] of a column of dates, [NaT] skipped. *)
Fixpoint series_max (col : list (option date)) : option date :=
  match col with
  | [] => None
  | None :: rest => series_max rest
  | Some d :: rest =>
      match series_max rest with
      | Some m => Some (Z.max d m)
      | None => Some d
      end
  end.

(** The mask [schedule_df["WeekStartDate"] == current_week_start]. *)
Definition starts_on (start : option date) (r : Schedule.row) : bool :=
  match Schedule.WeekStartDate r, start with
  | Some d, Some s => (d =? s)%Z
  | _, _ => false
  end.

Definition no_active_week : string :=
  "No active week found. Add a new week in the schedule.".

(** Lines 96 to 105: the current week and the [st.info] messages shown
    while it is determined.  [.iloc[0]] raises [IndexError] on an empty
    selection. *)
Definition current_week (today : date) (df : schedule_df)
    : result (string * list string) :=
  match past_weeks today df with
  | [] => Ok ("TBD", [no_active_week])
  | _ :: _ =>
      let current_week_start :=
        series_max (map Schedule.WeekStartDate (past_weeks today df)) in
      match filter (starts_on current_week_start) df with
      | r :: _ => Ok (Schedule.Week r, [])
      | [] => Raise IndexError
      end
  end.

(** [schedule_df[schedule_df["Week"] == current_week]]. *)
Definition week_schedule (current_week : string) (df : schedule_df)
    : schedule_df :=
  filter (fun r => Schedule.Week r =? current_week) df.

Inductive status : Type := Open | Closed.

(** Lines 111 to 118.  [week_start] is the WeekStartDate of the first row
    of the week's schedule.  When that cell is [NaT], so is
    [week_start + timedelta(days=7)], and ordering a [datetime.date]
    against [NaT] raises [TypeError] (pandas 2; earlier versions warn). *)
Definition week_status (today : date) (week_schedule : schedule_df)
    : result status :=
  match week_schedule with
  | [] => Ok Open
  | r :: _ =>
      match Schedule.WeekStartDate r with
      | Some week_start =>
          if (today <? week_start + 7)%Z then Ok Open else Ok Closed
      | None => Raise TypeError
      end
  end.

(** [get_week_status]: the helper with a one-day window ("Open only on
    Sunday").  The page never calls it. *)
Definition get_week_status (today week_start : date) : status :=
  if (today <? week_start + 1)%Z then Open else Closed.

(** ** Statistics (steps 3 and 4 of the page) *)

(** What a section of the page shows: a value, or an [st.info] message in
    its place. *)
Inductive shown (A : Type) : Type :=
| Value (a : A)
| Info (msg : string).
Arguments Value {A} a.
Arguments Info {A} msg.

(** [df_all["Correct"] = df_all["Pick"] == df_all["Winner"]]: equality of
    the two cells as strings. *)
Definition Correct (r : Picks.row) : bool :=
  Picks.Pick r =? Picks.Winner r.

(** The number of [True] cells of a boolean column. *)
Definition count_true (col : list bool) : nat :=
  List.length (filter (fun b => b) col).

(** An integer as a binary64 number (exact below 2^53). *)
Definition float_of_Z (z : Z) : float := PrimFloat.of_uint63 (Uint63.of_Z z).

Definition float_of_nat (n : nat) : float := float_of_Z (Z.of_nat n).

(** [Series.mean()] of a boolean column: the sum of the cells, which is
    their count of [True] as a binary64 number, divided by the number of
    cells; NaN on an empty column. *)
Definition mean (col : list bool) : float :=
  (float_of_nat (count_true col) / float_of_nat (List.length col))%float.

(** [numpy.rint]: the nearest integer, ties to even, obtained from the
    binary64 addition itself (adding 2^52 rounds to an integer); numbers
    from 2^52 on are integers already.  Up to the sign of a zero result,
    which no figure of the page depends on. *)
Definition rint (x : float) : float :=
  (if abs x <? 0x1p52 then
     if 0 <=? x then (x + 0x1p52) - 0x1p52 else (x - 0x1p52) + 0x1p52
   else x)%float.

(** [round(x, decimals)] of a numpy double ([Series.mean] returns one) and
    [Series.round(decimals)]: numpy scales by 10^decimals, applies [rint]
    and scales back. *)
Definition round (x : float) (decimals : nat) : float :=
  (rint (x * float_of_nat (10 ^ decimals)) / float_of_nat (10 ^ decimals))%float.

(** The rows of a user in a week:
    [df_all[(df_all["User"]==username) & (df_all["Week"]==current_week)]]. *)
Definition user_picks (username current_week : string) (df_all : picks_df)
    : picks_df :=
  filter (fun r => (Picks.User r =? username) && (Picks.Week r =? current_week))
    df_all.

Definition no_picks_yet : string :=
  "You haven't made any picks yet for this week.".

(** Lines 167 to 173: the "Weekly Accuracy" metric, or the message shown in
    its place. *)
Definition weekly_accuracy (username current_week : string)
    (df_all : picks_df) : shown float :=
  match user_picks username current_week df_all with
  | [] => Info no_picks_yet
  | rows => Value (round (mean (map Correct rows) * 100)%float 1)
  end.

(** The group keys of [groupby("User")]: the distinct users, sorted. *)
Fixpoint insert_key (u : string) (keys : list string) : list string :=
  match keys with
  | [] => [u]
  | k :: rest =>
      match String.compare u k with
      | Lt => u :: keys
      | Eq => keys
      | Gt => k :: insert_key u rest
      end
  end.

(** The order of the group keys: the order of Python strings, character
    by character. *)
Definition key_lt (a b : string) : Prop := String.compare a b = Lt.

Definition group_keys (df : picks_df) : list string :=
  fold_right (fun r keys => insert_key (Picks.User r) keys) [] df.

(** [df.groupby("User")["Correct"].mean().reset_index()]. *)
Definition groupby_User_Correct_mean (df : picks_df) : list (string * float) :=
  map (fun u => (u, mean (map Correct
                            (filter (fun r => Picks.User r =? u) df))))
      (group_keys df).

(** The frame [["User", "Accuracy %"]] built from a frame of picks, with
    ["Accuracy %"] = [(Correct * 100).round(1)]. *)
Definition leaderboard (df : picks_df) : list (string * float) :=
  map (fun g => (fst g, round (snd g * 100)%float 1))
      (groupby_User_Correct_mean df).

(** [week_picks = df_all[df_all["Week"]==current_week]]. *)
Definition week_picks (current_week : string) (df_all : picks_df) : picks_df :=
  filter (fun r => Picks.Week r =? current_week) df_all.

(** Lines 179 to 185. *)
Definition weekly_leaderboard (current_week : string) (df_all : picks_df)
    : shown (list (string * float)) :=
  match week_picks current_week df_all with
  | [] => Info "No picks recorded yet for this week."
  | rows => Value (leaderboard rows)
  end.

(** Lines 188 to 193. *)
Definition cumulative_leaderboard (df_all : picks_df)
    : shown (list (string * float)) :=
  match df_all with
  | [] => Info "No picks recorded yet."
  | rows => Value (leaderboard rows)
  end.

(** ** The accuracy in exact arithmetic *)

(** The integer nearest to the rational [num / den] ([den] > 0), a tie
    going to the even neighbour. *)
Definition round_half_even (num den : Z) : Z :=
  (let q := num / den in
   let r := num mod den in
   if 2 * r <? den then q
   else if den <? 2 * r then q + 1
   else if Z.even q then q else q + 1)%Z.

(** The same with a tie going up. *)
Definition round_half_up (num den : Z) : Z :=
  ((2 * num + den) / (2 * den))%Z.

(** The binary64 number nearest to the decimal [tenths / 10], which prints
    as that decimal. *)
Definition decimal1 (tenths : Z) : float :=
  (float_of_Z tenths / 10)%float.

(** The percentage [100 * k / n] rounded to one decimal in exact
    arithmetic, in tenths. *)
Definition exact_tenths (k n : nat) : Z :=
  round_half_even (1000 * Z.of_nat k) (Z.of_nat n).

(** The value the page computes for [k] correct picks out of [n]. *)
Definition accuracy_of (k n : nat) : float :=
  round (float_of_nat k / float_of_nat n * 100)%float 1.

(** [d] tenths is a one-decimal value nearest to the percentage
    [100 * k / n]. *)
Definition nearest_tenths (k n : nat) (d : Z) : Prop :=
  (2 * Z.abs (d * Z.of_nat n - 1000 * Z.of_nat k) <= Z.of_nat n)%Z.

(** The page and the exact rounding agree for every [k <= n <= bound]. *)
Definition agree_upto (bound : nat) : bool :=
  forallb (fun n =>
             forallb (fun k =>
                        PrimFloat.Leibniz.eqb (accuracy_of k n)
                          (decimal1 (exact_tenths k n)))
                     (seq 0 (S n)))
          (seq 1 bound).

(** The page shows the exact rounding or, when the percentage lies half way
    between two one-decimal values, one of the two. *)
Definition shows_nearest (k n : nat) : bool :=
  let a := accuracy_of k n in
  let q := (1000 * Z.of_nat k / Z.of_nat n)%Z in
  PrimFloat.Leibniz.eqb a (decimal1 (exact_tenths k n))
  || ((2 * (1000 * Z.of_nat k mod Z.of_nat n) =? Z.of_nat n)%Z
      && (PrimFloat.Leibniz.eqb a (decimal1 q)
          || PrimFloat.Leibniz.eqb a (decimal1 (q + 1)))).

Definition nearest_upto (bound : nat) : bool :=
  forallb (fun n => forallb (fun k => shows_nearest k n) (seq 0 (S n)))
          (seq 1 bound).

(** Eighty picks of one user in one week, the first [correct] of them
    right. *)
Definition eighty_picks (correct : nat) : picks_df :=
  map (fun i => Picks.mk "Em" "1" "2024-01-14"
                  ("Game" ++ NilEmpty.string_of_uint (Nat.to_uint i))%string
                  "BOS" (if (i <? correct)%nat then "BOS" else "NYR"))
      (seq 0 80).

(** ** Reading and writing a sheet *)

(** The characters [str.strip()] removes (those with [str.isspace]), as
    UTF-8 byte sequences: U+0009 to U+000D, U+001C to U+0020, U+0085,
    U+00A0, U+1680, U+2000 to U+200A, U+2028, U+2029, U+202F, U+205F and
    U+3000. *)
Definition isspace : list (list ascii) :=
  map (map ascii_of_nat)
    [[9]; [10]; [11]; [12]; [13]; [28]; [29]; [30]; [31]; [32];
     [194; 133]; [194; 160]; [225; 154; 128];
     [226; 128; 128]; [226; 128; 129]; [226; 128; 130]; [226; 128; 131];
     [226; 128; 132]; [226; 128; 133]; [226; 128; 134]; [226; 128; 135];
     [226; 128; 136]; [226; 128; 137]; [226; 128; 138];
     [226; 128; 168]; [226; 128; 169]; [226; 128; 175];
     [226; 129; 159]; [227; 128; 128]].

Fixpoint is_prefix (p l : list ascii) : bool :=
  match p, l with
  | [], _ => true
  | a :: p', b :: l' => Ascii.eqb a b && is_prefix p' l'
  | _ :: _, [] => false
  end.

(** The number of bytes of the character of [chars] at the head of [l],
    0 when there is none. *)
Definition leading (chars : list (list ascii)) (l : list ascii) : nat :=
  match find (fun p => is_prefix p l) chars with
  | Some p => List.length p
  | None => 0
  end.

(** Removes the characters of [chars] at the head of [l]. *)
Fixpoint lstrip_with (chars : list (list ascii)) (fuel : nat)
    (l : list ascii) : list ascii :=
  match fuel with
  | 0 => l
  | S fuel' =>
      match leading chars l with
      | 0 => l
      | k => lstrip_with chars fuel' (skipn k l)
      end
  end.

Definition lstrip (l : list ascii) : list ascii :=
  lstrip_with isspace (List.length l) l.

Definition rstrip (l : list ascii) : list ascii :=
  rev (lstrip_with (map (@rev ascii) isspace) (List.length l) (rev l)).

(** [str(h).strip()] of a cell. *)
Definition strip (s : string) : string :=
  string_of_list_ascii (rstrip (lstrip (list_ascii_of_string s))).










(** ** The pick form (step 1 of the page) *)

(** [existing.iloc[0]["Pick"] if not existing.empty else ""]. *)
Definition current_pick (df_all : picks_df) (username current_week game : string)
    : string :=
  match filter (exists_mask username current_week game) df_all with
  | r :: _ => Picks.Pick r
  | [] => ""
  end.

(** The [index=] argument of the radio over [["", *options]]. *)
Definition radio_index (options : list string) (current_pick : string) : nat :=
  match index current_pick options with Some i => i + 1 | None => 0 end.

(** ** One run of the page *)

Definition users : list string := ["Em"; "Ma"].

(** What the widgets return in one run of the script.  The radio, the
    button and the winner select box of a game are keyed by the name of the
    game. *)
Record widgets : Type := mk_widgets {
  username : string;
  radio : string -> string;
  button : string -> bool;
  selectbox : string -> string
}.

(** [options = [row["Home"], row["Away"]]]. *)
Definition options (row : Schedule.row) : list string :=
  [Schedule.Home row; Schedule.Away row].

(** Lines 126 to 143: for each game of the week, when the week is open, a
    clicked button saves the pick of the radio unless it is empty.  Each
    [save_pick] reloads the sheet, so the saves are chained. *)
Definition make_picks (w : widgets) (current_week : string) (st : status)
    (week_schedule : schedule_df) (sheet : picks_df) : picks_df :=
  match st with
  | Open =>
      fold_left
        (fun sheet row =>
           let game := Schedule.Game row in
           let pick := radio w game in
           if button w game && negb (pick =? "")
           then save_pick (username w) current_week (Schedule.Date row)
                  game pick sheet
           else sheet)
        week_schedule sheet
  | Closed => sheet
  end.

(** Lines 149 to 159: for each game of the week, the current winner is read
    from [df_all], the frame loaded at the start of the run, and a changed,
    non-empty selection is saved to the sheet. *)
Definition record_winners (w : widgets) (df_all : picks_df)
    (week_schedule : schedule_df) (sheet : picks_df) : picks_df :=
  fold_left
    (fun sheet row =>
       let game := Schedule.Game row in
       match winner_changed game (selectbox w game)
               (current_winner df_all game) sheet with
       | Some sheet' => sheet'
       | None => sheet
       end)
    week_schedule sheet.

(** Lines 84 to 159: the sheet after one run of the script that reaches
    its end, from the sheet before it.  ([df_all], loaded at the start, is
    the sheet before the run.) *)
Definition run (today : date) (schedule : schedule_df) (w : widgets)
    (sheet : picks_df) : result picks_df :=
  match current_week today schedule with
  | Raise e => Raise e
  | Ok (cw, _) =>
      match week_status today (week_schedule cw schedule) with
      | Raise e => Raise e
      | Ok st =>
          Ok (record_winners w sheet (week_schedule cw schedule)
                (make_picks w cw st (week_schedule cw schedule) sheet))
      end
  end.

(** [df'] is [df] with its rows rewritten in place, each to a row related
    to it by [R], followed by added rows that satisfy [Q]. *)
Definition rewrites (R : Picks.row -> Picks.row -> Prop)
    (Q : Picks.row -> Prop) (df df' : picks_df) : Prop :=
  exists updated added,
    df' = updated ++ added /\ Forall2 R df updated /\ Forall Q added.

(** Two rows that differ at most in Pick and Winner. *)
Definition same_game_row (r r' : Picks.row) : Prop :=
  Picks.User r' = Picks.User r /\ Picks.Week r' = Picks.Week r /\
  Picks.Date r' = Picks.Date r /\ Picks.Game r' = Picks.Game r.

(** What a run for user [user] in week [cw], whose schedule lists the games
    [games], may do to a row: the row keeps User, Week, Date and Game; its
    Pick changes only if it is a row of that user, week and one of those
    games, and then not to the empty string; its Winner changes only if its
    game is one of those games. *)
Definition run_changes (user cw : string) (games : list string)
    (r r' : Picks.row) : Prop :=
  same_game_row r r' /\
  (Picks.Pick r' = Picks.Pick r \/
   (Picks.User r = user /\ Picks.Week r = cw /\ In (Picks.Game r) games /\
    Picks.Pick r' <> "")) /\
  (Picks.Winner r' = Picks.Winner r \/ In (Picks.Game r) games).

(** The rows a run may add. *)
Definition run_adds (user cw : string) (games : list string) (r : Picks.row)
    : Prop :=
  Picks.User r = user /\ Picks.Week r = cw /\ In (Picks.Game r) games /\
  Picks.Pick r <> "".

(** A row that differs from another in Winner at most. *)
Definition winner_only (r r' : Picks.row) : Prop :=
  r' = Picks.set_Winner (Picks.Winner r') r.

(** The sheets the page can produce from an empty sheet, run after run,
    whatever the schedules and the days, with the user selector on one of
    its users. *)
Inductive reachable : picks_df -> Prop :=
| reachable_empty : reachable []
| reachable_run today schedule w sheet sheet' :
    reachable sheet -> In (username w) users ->
    run today schedule w sheet = Ok sheet' -> reachable sheet'.

(** No row of the table has an empty pick. *)
Definition no_blank_pick (df : picks_df) : Prop :=
  Forall (fun r => Picks.Pick r <> "") df.

(** [current_week_start], the latest start date not after today. *)
Definition current_week_start (today : date) (df : schedule_df) : option date :=
  series_max (map Schedule.WeekStartDate (past_weeks today df)).

(** Every row of a week carries the same, parsed, start date. *)
Definition consistent_schedule (df : schedule_df) : Prop :=
  (forall r, In r df -> Schedule.WeekStartDate r <> None) /\
  (forall r r', In r df -> In r' df -> Schedule.Week r = Schedule.Week r' ->
                Schedule.WeekStartDate r = Schedule.WeekStartDate r').

(** * Properties *)

(** ** Counting the rows of a key *)

Lemma loc_set_length mask f df :
  List.length (loc_set mask f df) = List.length df.
Proof. apply length_map. Qed.

Lemma loc_set_nth mask f df i :
  nth_error (loc_set mask f df) i =
  option_map (fun r => if mask r then f r else r) (nth_error df i).
Proof. apply nth_error_map. Qed.

Lemma exists_mask_set_Pick u w g p r :
  exists_mask u w g (Picks.set_Pick p r) = exists_mask u w g r.
Proof. reflexivity. Qed.

Lemma exists_mask_set_Winner u w g x r :
  exists_mask u w g (Picks.set_Winner x r) = exists_mask u w g r.
Proof. reflexivity. Qed.

Lemma exists_mask_true u w g r :
  exists_mask u w g r = true <->
  Picks.User r = u /\ Picks.Week r = w /\ Picks.Game r = g.
Proof.
  unfold exists_mask. rewrite !andb_true_iff, !String.eqb_eq. tauto.
Qed.

(** Rewriting rows by a function that keeps the key keeps every count. *)
Lemma rows_for_loc_set u w g mask f df :
  (forall r, exists_mask u w g (f r) = exists_mask u w g r) ->
  rows_for u w g (loc_set mask f df) = rows_for u w g df.
Proof.
  intros Hkey. unfold rows_for, loc_set.
  induction df as [|r df IH]; simpl; [reflexivity|].
  assert (E : exists_mask u w g (if mask r then f r else r)
              = exists_mask u w g r)
    by (destruct (mask r); [apply Hkey | reflexivity]).
  rewrite E. destruct (exists_mask u w g r); simpl; now rewrite IH.
Qed.

Lemma rows_for_app u w g df1 df2 :
  rows_for u w g (df1 ++ df2) = rows_for u w g df1 + rows_for u w g df2.
Proof. unfold rows_for. now rewrite filter_app, length_app. Qed.

Lemma existsb_rows_for u w g df :
  existsb (exists_mask u w g) df = false <-> rows_for u w g df = 0.
Proof.
  unfold rows_for. induction df as [|r df IH]; simpl; [tauto|].
  destruct (exists_mask u w g r); simpl; [split; discriminate | exact IH].
Qed.

(** What [save_pick] does to the count of any key. *)
Lemma rows_for_save_pick u w g user week date game pick df :
  rows_for u w g (save_pick user week date game pick df) =
  if exists_mask u w g (Picks.mk user week date game pick "")
  then Nat.max 1 (rows_for u w g df)
  else rows_for u w g df.
Proof.
  unfold save_pick.
  destruct (existsb (exists_mask user week game) df) eqn:E.
  - rewrite rows_for_loc_set by (intros; apply exists_mask_set_Pick).
    destruct (exists_mask u w g _) eqn:K; [|reflexivity].
    apply exists_mask_true in K. simpl in K. destruct K as (-> & -> & ->).
    destruct (rows_for u w g df) eqn:N; [|reflexivity].
    apply existsb_rows_for in N. congruence.
  - rewrite rows_for_app.
    change (rows_for u w g [Picks.mk user week date game pick ""])
      with (List.length (if exists_mask u w g (Picks.mk user week date game pick "")
                    then [Picks.mk user week date game pick ""] else [])).
    destruct (exists_mask u w g _) eqn:K; simpl; [|lia].
    apply exists_mask_true in K. simpl in K. destruct K as (-> & -> & ->).
    apply existsb_rows_for in E. rewrite E. reflexivity.
Qed.

Lemma In_save_pick_Pick user week date game pick df r :
  In r (save_pick user week date game pick df) ->
  exists_mask user week game r = true -> Picks.Pick r = pick.
Proof.
  unfold save_pick.
  destruct (existsb (exists_mask user week game) df) eqn:E; intros Hin Hm.
  - unfold loc_set in Hin. apply in_map_iff in Hin.
    destruct Hin as (r0 & <- & _).
    destruct (exists_mask user week game r0) eqn:K; [reflexivity | congruence].
  - apply in_app_or in Hin. destruct Hin as [Hin | [<- | []]]; [|reflexivity].
    exfalso. apply existsb_rows_for in E. unfold rows_for in E.
    assert (Hf : In r (filter (exists_mask user week game) df))
      by (apply filter_In; auto).
    destruct (filter (exists_mask user week game) df); [inversion Hf | discriminate].
Qed.


(** ** [save_pick] *)

(** C1 (as amended): [save_pick] is an upsert keyed on (User, Week, Game).
    On every picks table, if no row matches the key the row
    {User, Week, Date, Game, Pick: pick, Winner: ""} is appended, and if
    some row matches, the Pick field of each matching row is overwritten.
    When the table holds at most one row for the key, two successive calls
    for that key leave exactly one row for it, holding the latest pick. *)
Theorem save_pick_upsert user week date game pick df :
  (existsb (exists_mask user week game) df = false ->
   save_pick user week date game pick df
   = df ++ [Picks.mk user week date game pick ""]) /\
  (existsb (exists_mask user week game) df = true ->
   List.length (save_pick user week date game pick df) = List.length df /\
   forall i r, nth_error df i = Some r ->
     nth_error (save_pick user week date game pick df) i
     = Some (if exists_mask user week game r
             then Picks.set_Pick pick r else r)) /\
  (rows_for user week game df <= 1 ->
   forall date' pick',
     let df2 := save_pick user week date' game pick'
                  (save_pick user week date game pick df) in
     rows_for user week game df2 = 1 /\
     forall r, In r df2 ->
       exists_mask user week game r = true -> Picks.Pick r = pick').
Proof.
  split; [|split].
  - intros E. unfold save_pick. now rewrite E.
  - intros E. unfold save_pick. rewrite E. split.
    + apply loc_set_length.
    + intros i r Hi. now rewrite loc_set_nth, Hi.
  - intros Hle date' pick' df2. split.
    + unfold df2. rewrite !rows_for_save_pick.
      assert (K : forall d p, exists_mask user week game
                                (Picks.mk user week d game p "") = true)
        by (intros; apply exists_mask_true; simpl; auto).
      rewrite !K. lia.
    + intros r. apply In_save_pick_Pick.
Qed.

Lemma save_pick_upsert_witness :
  let df := [Picks.mk "Ma" "1" "2024-01-14" "Game1" "BOS" ""] in
  let df2 := save_pick "Em" "1" "2024-01-14" "Game1" "NYR"
               (save_pick "Em" "1" "2024-01-14" "Game1" "BOS" df) in
  rows_for "Em" "1" "Game1" df2 = 1 /\
  forall r, In r df2 ->
    exists_mask "Em" "1" "Game1" r = true -> Picks.Pick r = "NYR".
Proof.
  apply (proj2 (proj2 (save_pick_upsert "Em" "1" "2024-01-14" "Game1" "BOS"
                         [Picks.mk "Ma" "1" "2024-01-14" "Game1" "BOS" ""]))).
  vm_compute. exact (le_S 0 0 (le_n 0)).
Defined.

(** On a table that already stores the key twice, two calls of [save_pick]
    with different picks leave two rows for the key, not one. *)
Lemma save_pick_twice_keeps_duplicates :
  let df := [Picks.mk "Em" "1" "2024-01-14" "Game1" "BOS" "";
             Picks.mk "Em" "1" "2024-01-14" "Game1" "BOS" ""] in
  rows_for "Em" "1" "Game1"
    (save_pick "Em" "1" "2024-01-14" "Game1" "NYR"
       (save_pick "Em" "1" "2024-01-14" "Game1" "TOR" df)) = 2.
Proof. reflexivity. Qed.

(** C8: when a row matches (user, week, game), [save_pick] changes only the
    Pick field of the matching row: its Date and Winner (and key) keep their
    values, the date argument plays no part, and every other row is written
    back unchanged, at the position it had. *)
Theorem save_pick_update_frame user week date game pick df :
  existsb (exists_mask user week game) df = true ->
  List.length (save_pick user week date game pick df) = List.length df /\
  (forall date', save_pick user week date' game pick df
                 = save_pick user week date game pick df) /\
  forall i r, nth_error df i = Some r ->
    exists r', nth_error (save_pick user week date game pick df) i = Some r' /\
      (exists_mask user week game r = true ->
         Picks.Pick r' = pick /\ Picks.Date r' = Picks.Date r /\
         Picks.Winner r' = Picks.Winner r /\ Picks.User r' = Picks.User r /\
         Picks.Week r' = Picks.Week r /\ Picks.Game r' = Picks.Game r) /\
      (exists_mask user week game r = false -> r' = r).
Proof.
  intros E. unfold save_pick. rewrite E. split; [apply loc_set_length|].
  split; [reflexivity|].
  intros i r Hi. rewrite loc_set_nth, Hi. simpl.
  destruct (exists_mask user week game r).
  - exists (Picks.set_Pick pick r). split; [reflexivity|].
    split; [intros _; repeat split | discriminate].
  - exists r. split; [reflexivity|].
    split; [discriminate | reflexivity].
Qed.

Lemma save_pick_update_frame_witness :
  let df := [Picks.mk "Ma" "1" "2024-01-14" "Game1" "BOS" "BOS";
             Picks.mk "Em" "1" "2024-01-14" "Game1" "BOS" "BOS"] in
  save_pick "Em" "1" "2024-02-30" "Game1" "NYR" df
  = [Picks.mk "Ma" "1" "2024-01-14" "Game1" "BOS" "BOS";
     Picks.mk "Em" "1" "2024-01-14" "Game1" "NYR" "BOS"] /\
  List.length (save_pick "Em" "1" "2024-02-30" "Game1" "NYR" df) = 2.
Proof.
  split; [reflexivity|].
  apply (proj1 (save_pick_update_frame "Em" "1" "2024-02-30" "Game1" "NYR"
                  [Picks.mk "Ma" "1" "2024-01-14" "Game1" "BOS" "BOS";
                   Picks.mk "Em" "1" "2024-01-14" "Game1" "BOS" "BOS"]
                  eq_refl)).
Defined.

(** ** [save_winner] *)

(** C2: [save_winner g w] sets Winner to [w] on every row whose Game is
    [g], whatever its User and Week, and keeps the other rows; so two rows
    of different weeks that share the game name both receive the winner. *)
Theorem save_winner_every_row game winner df :
  List.length (save_winner game winner df) = List.length df /\
  (forall i r, nth_error df i = Some r ->
     nth_error (save_winner game winner df) i
     = Some (if Picks.Game r =? game
             then Picks.set_Winner winner r else r)) /\
  (forall user1 week1 user2 week2 d1 d2 p1 p2 w1 w2,
     save_winner game winner
       [Picks.mk user1 week1 d1 game p1 w1; Picks.mk user2 week2 d2 game p2 w2]
     = [Picks.mk user1 week1 d1 game p1 winner;
        Picks.mk user2 week2 d2 game p2 winner]).
Proof.
  split; [apply loc_set_length|]. split.
  - intros i r Hi. unfold save_winner. now rewrite loc_set_nth, Hi.
  - intros. unfold save_winner, loc_set. simpl. now rewrite String.eqb_refl.
Qed.

Lemma save_winner_every_row_witness :
  nth_error
    (save_winner "Game1" "BOS"
       [Picks.mk "Em" "1" "2024-01-08" "Game1" "NYR" "";
        Picks.mk "Ma" "2" "2024-01-15" "Game1" "BOS" ""]) 1
  = Some (Picks.mk "Ma" "2" "2024-01-15" "Game1" "BOS" "BOS").
Proof.
  apply (proj1 (proj2 (save_winner_every_row "Game1" "BOS"
                         [Picks.mk "Em" "1" "2024-01-08" "Game1" "NYR" "";
                          Picks.mk "Ma" "2" "2024-01-15" "Game1" "BOS" ""]))
           1 (Picks.mk "Ma" "2" "2024-01-15" "Game1" "BOS" "") eq_refl).
Defined.

Lemma save_winner_fixed game winner df :
  (forall r, In r df -> Picks.Game r = game -> Picks.Winner r = winner) ->
  save_winner game winner df = df.
Proof.
  intros H. unfold save_winner, loc_set.
  rewrite <- (map_id df) at 2. apply map_ext_in. intros r Hr.
  destruct (Picks.Game r =? game) eqn:E; [|reflexivity].
  apply String.eqb_eq in E. specialize (H r Hr E).
  destruct r; simpl in *. now subst.
Qed.

Lemma In_save_winner game winner df r :
  In r (save_winner game winner df) ->
  Picks.Game r = game -> Picks.Winner r = winner.
Proof.
  unfold save_winner, loc_set. intros Hin Hg.
  apply in_map_iff in Hin. destruct Hin as (r0 & <- & _).
  destruct (Picks.Game r0 =? game) eqn:E; [reflexivity|].
  apply String.eqb_neq in E. contradiction.
Qed.

Lemma current_winner_save_winner game winner df :
  existsb (fun r => Picks.Game r =? game) df = true ->
  current_winner (save_winner game winner df) game = winner.
Proof.
  intros E. unfold current_winner.
  destruct (filter (fun r => Picks.Game r =? game) (save_winner game winner df))
    as [|r rest] eqn:F.
  - exfalso. apply existsb_exists in E. destruct E as (r & Hr & Hg).
    assert (Hin : In (Picks.set_Winner winner r)
                    (filter (fun r => Picks.Game r =? game)
                       (save_winner game winner df))).
    { apply filter_In. split; [|exact Hg].
      unfold save_winner, loc_set. apply in_map_iff.
      exists r. now rewrite Hg. }
    rewrite F in Hin. inversion Hin.
  - assert (Hin : In r (filter (fun r => Picks.Game r =? game)
                          (save_winner game winner df)))
      by (rewrite F; now left).
    apply filter_In in Hin. destruct Hin as (Hin & Hg).
    apply String.eqb_eq in Hg. now apply (In_save_winner game winner df).
Qed.

Lemma displayed_winner_cases options current :
  displayed_winner options current = current \/
  displayed_winner options current = "".
Proof.
  unfold displayed_winner, selectbox_index.
  destruct (index current options) as [i|] eqn:E; [|right; reflexivity].
  left. rewrite Nat.add_1_r. simpl.
  revert i E. induction options as [|o rest IH]; intros i E; [discriminate|].
  simpl in E. destruct (o =? current) eqn:Eo.
  - injection E as <-. now apply String.eqb_eq in Eo.
  - destruct (index current rest) as [j|]; [|discriminate].
    injection E as <-. simpl. now apply IH.
Qed.

(** C9: recording the same winner again is idempotent.  [save_winner g w]
    leaves a table unchanged when every row of game [g] already has Winner
    [w], in particular right after [save_winner g w]; and the select box
    fires no save when the selected winner is empty, equals the stored
    current winner, or equals the entry it displayed. *)
Theorem save_winner_idempotent game winner df :
  ((forall r, In r df -> Picks.Game r = game -> Picks.Winner r = winner) ->
   save_winner game winner df = df) /\
  save_winner game winner (save_winner game winner df)
  = save_winner game winner df /\
  (forall current, winner_changed game "" current df = None) /\
  winner_changed game winner winner df = None /\
  (forall options current,
     winner_changed game (displayed_winner options current) current df
     = None) /\
  (existsb (fun r => Picks.Game r =? game) df = true ->
   let stored := save_winner game winner df in
   current_winner stored game = winner /\
   winner_changed game winner (current_winner stored game) stored = None).
Proof.
  split; [apply save_winner_fixed|]. split.
  - apply save_winner_fixed. intros r. apply In_save_winner.
  - unfold winner_changed. split; [|split; [|split]].
    + intros current. simpl. now rewrite andb_false_r.
    + now rewrite String.eqb_refl.
    + intros options current.
      destruct (displayed_winner_cases options current) as [-> | ->].
      * now rewrite String.eqb_refl.
      * simpl. now rewrite andb_false_r.
    + intros E.
      pose proof (current_winner_save_winner game winner df E) as C.
      split; [exact C|]. now rewrite C, String.eqb_refl.
Qed.

Lemma save_winner_idempotent_witness :
  save_winner "Game1" "BOS"
    [Picks.mk "Em" "1" "2024-01-14" "Game1" "NYR" "BOS";
     Picks.mk "Em" "1" "2024-01-14" "Game2" "TOR" ""]
  = [Picks.mk "Em" "1" "2024-01-14" "Game1" "NYR" "BOS";
     Picks.mk "Em" "1" "2024-01-14" "Game2" "TOR" ""].
Proof.
  apply (proj1 (save_winner_idempotent "Game1" "BOS" _)).
  intros r [<- | [<- | []]]; simpl; [reflexivity | discriminate].
Defined.

(** ** The uniqueness invariant *)

Lemma rows_for_cons u w g r df :
  rows_for u w g (r :: df)
  = (if exists_mask u w g r then 1 else 0) + rows_for u w g df.
Proof. unfold rows_for. simpl. now destruct (exists_mask u w g r). Qed.

Lemma unique_picksb_sound df : unique_picksb df = true -> unique_picks df.
Proof.
  induction df as [|r df IH]; intros H u w g.
  - unfold rows_for. simpl. lia.
  - simpl in H. apply andb_true_iff in H. destruct H as (Hr & Hdf).
    rewrite rows_for_cons. specialize (IH Hdf u w g).
    destruct (exists_mask u w g r) eqn:K; [|simpl; exact IH].
    apply exists_mask_true in K. destruct K as (<- & <- & <-).
    apply negb_true_iff, existsb_rows_for in Hr. rewrite Hr. lia.
Qed.

Lemma rows_for_save_winner u w g game winner df :
  rows_for u w g (save_winner game winner df) = rows_for u w g df.
Proof.
  unfold save_winner. apply rows_for_loc_set.
  intros r. apply exists_mask_set_Winner.
Qed.

(** C7: the uniqueness invariant is preserved.  From a table with at most
    one row per (User, Week, Game), [save_pick] with any arguments stores a
    table with at most one row per key; [save_winner] keeps the number of
    rows and the number of rows under every key, hence the invariant. *)
Theorem unique_picks_preserved df :
  unique_picks df ->
  (forall user week date game pick,
     unique_picks (save_pick user week date game pick df)) /\
  (forall game winner,
     List.length (save_winner game winner df) = List.length df /\
     (forall u w g, rows_for u w g (save_winner game winner df)
                    = rows_for u w g df) /\
     unique_picks (save_winner game winner df)).
Proof.
  intros Hu. split.
  - intros user week date game pick u w g.
    rewrite rows_for_save_pick. specialize (Hu u w g).
    destruct (exists_mask u w g _); lia.
  - intros game winner. split; [apply loc_set_length|].
    split; [intros; apply rows_for_save_winner|].
    intros u w g. rewrite rows_for_save_winner. apply Hu.
Qed.

Lemma unique_picks_preserved_witness :
  unique_picks
    (save_pick "Em" "1" "2024-01-14" "Game1" "NYR"
       [Picks.mk "Em" "1" "2024-01-14" "Game1" "BOS" "";
        Picks.mk "Ma" "1" "2024-01-14" "Game1" "BOS" ""]).
Proof.
  apply (proj1 (unique_picks_preserved
                  [Picks.mk "Em" "1" "2024-01-14" "Game1" "BOS" "";
                   Picks.mk "Ma" "1" "2024-01-14" "Game1" "BOS" ""]
                  (unique_picksb_sound
                     [Picks.mk "Em" "1" "2024-01-14" "Game1" "BOS" "";
                      Picks.mk "Ma" "1" "2024-01-14" "Game1" "BOS" ""]
                     eq_refl))).
Defined.

(** ** The current week *)

Example ymd_is_toordinal :
  ymd 1 1 1 = 1%Z /\ ymd 1970 1 1 = 719163%Z /\ ymd 2024 1 14 = 738899%Z /\
  ymd 2024 2 29 = (ymd 2024 3 1 - 1)%Z /\ ymd 2023 12 31 = (ymd 2024 1 1 - 1)%Z.
Proof. repeat split. Qed.

Lemma series_max_spec col :
  match series_max col with
  | Some m => In (Some m) col /\ forall d, In (Some d) col -> (d <= m)%Z
  | None => forall d, ~ In (Some d) col
  end.
Proof.
  induction col as [|[d|] col IH]; simpl.
  - intros d [].
  - destruct (series_max col) as [m|].
    + destruct IH as (Hin & Hmax). split.
      * destruct (Z.max_spec d m) as [(_ & ->) | (_ & ->)]; auto.
      * intros d' [E | Hd']; [injection E as <-; lia|].
        specialize (Hmax d' Hd'). lia.
    + split; [now left|].
      intros d' [E | Hd']; [injection E as <-; lia | now apply IH in Hd'].
  - destruct (series_max col) as [m|].
    + destruct IH as (Hin & Hmax). split; [now right|].
      intros d' [E | Hd']; [discriminate | auto].
    + intros d' [E | Hd']; [discriminate | now apply IH in Hd'].
Qed.

Lemma le_today_true today r :
  le_today today r = true <->
  exists d, Schedule.WeekStartDate r = Some d /\ (d <= today)%Z.
Proof.
  unfold le_today. destruct (Schedule.WeekStartDate r) as [d|].
  - rewrite Z.leb_le. split; [eauto|]. now intros (d' & [= <-] & H).
  - split; [discriminate | now intros (d' & E & _)].
Qed.

Lemma starts_on_true s r :
  starts_on (Some s) r = true <-> Schedule.WeekStartDate r = Some s.
Proof.
  unfold starts_on. destruct (Schedule.WeekStartDate r) as [d|].
  - rewrite Z.eqb_eq. split; congruence.
  - split; discriminate.
Qed.

(** When some week has started, the branch of line 98 finds a row that
    starts on the latest start date not after today. *)
Lemma current_week_found today df :
  existsb (le_today today) df = true ->
  exists r start,
    In r df /\ Schedule.WeekStartDate r = Some start /\ (start <= today)%Z /\
    (forall r' d, In r' df -> Schedule.WeekStartDate r' = Some d ->
                  (d <= today)%Z -> (d <= start)%Z) /\
    current_week today df = Ok (Schedule.Week r, []).
Proof.
  intros E. apply existsb_exists in E. destruct E as (r0 & Hr0 & Hle0).
  assert (Hp0 : In r0 (past_weeks today df)) by (apply filter_In; auto).
  unfold current_week.
  destruct (past_weeks today df) as [|p ps] eqn:P; [inversion Hp0|].
  rewrite <- P in *. clear p ps P.
  pose proof (series_max_spec
                (map Schedule.WeekStartDate (past_weeks today df))) as M.
  destruct (series_max _) as [m|].
  - destruct M as (Hin & Hmax).
    apply in_map_iff in Hin. destruct Hin as (rm & Hrm & Hpm).
    apply filter_In in Hpm. destruct Hpm as (Hdf & Hle).
    apply le_today_true in Hle. destruct Hle as (d & Hd & Hdt).
    assert (d = m) by congruence. subst d.
    destruct (filter (starts_on (Some m)) df) as [|r rest] eqn:F.
    + exfalso.
      assert (Hf : In rm (filter (starts_on (Some m)) df))
        by (apply filter_In; split; [exact Hdf | now apply starts_on_true]).
      rewrite F in Hf. inversion Hf.
    + assert (Hf : In r (filter (starts_on (Some m)) df))
        by (rewrite F; now left).
      apply filter_In in Hf. destruct Hf as (Hr & Hs).
      apply starts_on_true in Hs.
      exists r, m. repeat split; auto.
      intros r' d Hr' Hd' Hle'. apply Hmax.
      apply in_map_iff. exists r'. split; [exact Hd'|].
      apply filter_In. split; [exact Hr'|].
      apply le_today_true. eauto.
  - exfalso. apply le_today_true in Hle0. destruct Hle0 as (d & Hd & _).
    apply (M d). apply in_map_iff. exists r0. auto.
Qed.

Lemma current_week_TBD today df :
  existsb (le_today today) df = false ->
  current_week today df = Ok ("TBD", [no_active_week]).
Proof.
  intros E. unfold current_week.
  destruct (past_weeks today df) as [|p ps] eqn:P; [reflexivity|].
  exfalso.
  assert (Hp : In p (past_weeks today df)) by (rewrite P; now left).
  apply filter_In in Hp. destruct Hp as (Hin & Hle).
  assert (X : existsb (le_today today) df = true)
    by (apply existsb_exists; eauto).
  congruence.
Qed.

(** C3 (as amended): week resolution.  If some row has a parsed
    WeekStartDate not after today, the current week is the Week of a row
    whose WeekStartDate is the latest such date.  Otherwise the current
    week is the sentinel "TBD" and the message "No active week found..." is
    shown; the week's schedule then consists of the schedule rows whose
    Week is itself "TBD", so it is empty when no row bears that name.  No
    exception is raised in either case. *)
Theorem current_week_resolution today df :
  (existsb (le_today today) df = true ->
   exists r start,
     In r df /\ Schedule.WeekStartDate r = Some start /\ (start <= today)%Z /\
     (forall r' d, In r' df -> Schedule.WeekStartDate r' = Some d ->
                   (d <= today)%Z -> (d <= start)%Z) /\
     current_week today df = Ok (Schedule.Week r, [])) /\
  (existsb (le_today today) df = false ->
   current_week today df = Ok ("TBD", [no_active_week]) /\
   (forall r, In r (week_schedule "TBD" df) <->
              In r df /\ Schedule.Week r = "TBD") /\
   ((forall r, In r df -> Schedule.Week r <> "TBD") ->
    week_schedule "TBD" df = [])) /\
  (exists v, current_week today df = Ok v).
Proof.
  split; [apply current_week_found|]. split.
  - intros E. split; [now apply current_week_TBD|]. split.
    + intros r. unfold week_schedule. rewrite filter_In, String.eqb_eq.
      reflexivity.
    + intros H. unfold week_schedule.
      induction df as [|r df IH]; [reflexivity|]. simpl.
      destruct (Schedule.Week r =? "TBD") eqn:K.
      * apply String.eqb_eq in K. exfalso. apply (H r); [now left | exact K].
      * apply IH.
        -- simpl in E. apply orb_false_iff in E. apply E.
        -- intros r' Hr'. apply H. now right.
  - destruct (existsb (le_today today) df) eqn:E.
    + destruct (current_week_found today df E) as (r & s & _ & _ & _ & _ & H).
      eauto.
    + rewrite (current_week_TBD today df E). eauto.
Qed.

Lemma current_week_resolution_witness :
  current_week (ymd 2024 1 16)
    [Schedule.mk "1" (Some (ymd 2024 1 7)) "2024-01-08" "Game1" "BOS" "NYR";
     Schedule.mk "2" None "2024-01-15" "Game2" "TOR" "MTL";
     Schedule.mk "3" (Some (ymd 2024 1 21)) "2024-01-22" "Game3" "BOS" "TOR"]
  = Ok ("1", []) /\
  current_week (ymd 2024 1 6)
    [Schedule.mk "1" (Some (ymd 2024 1 7)) "2024-01-08" "Game1" "BOS" "NYR"]
  = Ok ("TBD", [no_active_week]).
Proof.
  split; [reflexivity|].
  apply (proj1 (proj2 (current_week_resolution (ymd 2024 1 6)
    [Schedule.mk "1" (Some (ymd 2024 1 7)) "2024-01-08" "Game1" "BOS" "NYR"]))
    eq_refl).
Defined.

(** Before any week has started, a schedule that names a week "TBD" gives
    the sentinel week a schedule that is not empty. *)
Lemma tbd_week_schedule_not_empty :
  let df :=
    [Schedule.mk "TBD" (Some (ymd 2024 2 4)) "2024-02-05" "Game1" "BOS" "NYR"]
  in
  existsb (le_today (ymd 2024 1 16)) df = false /\
  current_week (ymd 2024 1 16) df = Ok ("TBD", [no_active_week]) /\
  week_schedule "TBD" df
  = [Schedule.mk "TBD" (Some (ymd 2024 2 4)) "2024-02-05" "Game1" "BOS" "NYR"].
Proof. repeat split. Qed.

(** ** The week's status *)



(** The unused helper closes the week a day after its start, while the page
    keeps it open for seven days. *)
Lemma get_week_status_differs :
  get_week_status (ymd 2024 1 16) (ymd 2024 1 14) = Closed /\
  week_status (ymd 2024 1 16)
    [Schedule.mk "2" (Some (ymd 2024 1 14)) "2024-01-15" "Game2" "TOR" "MTL"]
  = Ok Open.
Proof. split; reflexivity. Qed.

(** ** Weekly accuracy *)

Lemma round_half_even_nearest num den :
  (0 < den)%Z ->
  let d := round_half_even num den in
  (2 * Z.abs (d * den - num) <= den)%Z /\
  ((2 * Z.abs (d * den - num) = den)%Z -> Z.even d = true).
Proof.
  intros Hden. unfold round_half_even.
  pose proof (Z.div_mod num den ltac:(lia)) as E.
  pose proof (Z.mod_pos_bound num den Hden) as B.
  set (q := (num / den)%Z) in *. set (r := (num mod den)%Z) in *.
  assert (D0 : (q * den - num = - r)%Z) by lia.
  assert (D1 : ((q + 1) * den - num = den - r)%Z) by lia.
  destruct (Z.ltb_spec (2 * r) den) as [L|L]; lazy beta iota zeta.
  - rewrite D0. split; [lia | intros T; exfalso; lia].
  - destruct (Z.ltb_spec den (2 * r)) as [G|G]; lazy beta iota zeta.
    + rewrite D1. split; [lia | intros T; exfalso; lia].
    + destruct (Z.even q) eqn:Ev; lazy beta iota zeta.
      * rewrite D0. split; [lia | auto].
      * rewrite D1. split; [lia|]. intros _.
        rewrite Z.add_1_r, Z.even_succ, <- Z.negb_even, Ev. reflexivity.
Qed.

Lemma count_true_le col : count_true col <= List.length col.
Proof. unfold count_true. apply filter_length_le. Qed.

Lemma agree_upto_79 : agree_upto 79 = true.
Proof. vm_compute. reflexivity. Qed.

(** Below eighty picks the binary64 computation of the page yields the
    percentage rounded half-to-even in exact arithmetic. *)
Lemma accuracy_of_exact k n :
  k <= n -> 1 <= n -> n < 80 ->
  accuracy_of k n = decimal1 (exact_tenths k n).
Proof.
  intros Hk H1 H80. pose proof agree_upto_79 as A. unfold agree_upto in A.
  rewrite forallb_forall in A.
  specialize (A n ltac:(apply in_seq; lia)).
  rewrite forallb_forall in A.
  specialize (A k ltac:(apply in_seq; lia)).
  now apply FloatAxioms.Leibniz.eqb_spec.
Qed.

Lemma nearest_upto_400 : nearest_upto 400 = true.
Proof. vm_compute. reflexivity. Qed.

(** Up to four hundred picks the page shows a one-decimal value nearest to
    the exact percentage. *)
Lemma accuracy_of_nearest k n :
  k <= n -> 1 <= n -> n <= 400 ->
  exists d, accuracy_of k n = decimal1 d /\ nearest_tenths k n d.
Proof.
  intros Hk H1 H400. pose proof nearest_upto_400 as A. unfold nearest_upto in A.
  rewrite forallb_forall in A.
  specialize (A n ltac:(apply in_seq; lia)).
  rewrite forallb_forall in A.
  specialize (A k ltac:(apply in_seq; lia)).
  unfold shows_nearest in A. lazy zeta in A.
  apply orb_true_iff in A. destruct A as [A | A].
  - apply FloatAxioms.Leibniz.eqb_spec in A.
    exists (exact_tenths k n). split; [exact A|].
    apply (round_half_even_nearest (1000 * Z.of_nat k) (Z.of_nat n)). lia.
  - apply andb_true_iff in A. destruct A as (T & A).
    apply Z.eqb_eq in T.
    pose proof (Z.div_mod (1000 * Z.of_nat k) (Z.of_nat n) ltac:(lia)) as E.
    set (q := (1000 * Z.of_nat k / Z.of_nat n)%Z) in *.
    set (r := (1000 * Z.of_nat k mod Z.of_nat n)%Z) in *.
    apply orb_true_iff in A. destruct A as [A | A];
      apply FloatAxioms.Leibniz.eqb_spec in A.
    + exists q. split; [exact A|]. unfold nearest_tenths.
      replace (q * Z.of_nat n - 1000 * Z.of_nat k)%Z with (- r)%Z by lia. lia.
    + exists (q + 1)%Z. split; [exact A|]. unfold nearest_tenths.
      replace ((q + 1) * Z.of_nat n - 1000 * Z.of_nat k)%Z
        with (Z.of_nat n - r)%Z by lia.
      lia.
Qed.

Lemma user_picks_In username cw df_all r :
  In r (user_picks username cw df_all) <->
  In r df_all /\ Picks.User r = username /\ Picks.Week r = cw.
Proof.
  unfold user_picks. rewrite filter_In, andb_true_iff, !String.eqb_eq.
  reflexivity.
Qed.

Lemma weekly_accuracy_nonempty username cw df_all :
  user_picks username cw df_all <> [] ->
  weekly_accuracy username cw df_all
  = Value (accuracy_of
             (count_true (map Correct (user_picks username cw df_all)))
             (List.length (map Correct (user_picks username cw df_all)))).
Proof.
  unfold weekly_accuracy. intros H.
  destruct (user_picks username cw df_all); [contradiction | reflexivity].
Qed.

(** C5 (as amended): weekly accuracy.  The rows of the user in the current
    week are selected, Correct is the string equality of Pick and Winner,
    and with at least one row the page shows
    round(mean(Correct) * 100, 1) as binary64 arithmetic computes it: the
    mean is the count of correct rows divided by the number of rows, and
    rounding scales by ten, rounds to the nearest integer (ties to even)
    and scales back.  With fewer than eighty rows this is the exact
    percentage rounded to one decimal, ties to even; with up to four
    hundred rows it is a one-decimal value nearest to the exact percentage.
    Correct = [true, false, true] yields 66.7.  With no row, no accuracy is
    shown, only a message. *)
#[warnings="-inexact-float"]
Theorem weekly_accuracy_value username cw df_all :
  let rows := user_picks username cw df_all in
  let col := map Correct rows in
  (forall r, In r rows <->
             In r df_all /\ Picks.User r = username /\ Picks.Week r = cw) /\
  (forall r, Correct r = true <-> Picks.Pick r = Picks.Winner r) /\
  (rows = [] -> weekly_accuracy username cw df_all = Info no_picks_yet) /\
  (rows <> [] ->
   weekly_accuracy username cw df_all
   = Value (round (mean col * 100)%float 1) /\
   (List.length rows < 80 ->
    weekly_accuracy username cw df_all
    = Value (decimal1 (exact_tenths (count_true col) (List.length col)))) /\
   (List.length rows <= 400 ->
    exists d, weekly_accuracy username cw df_all = Value (decimal1 d) /\
              nearest_tenths (count_true col) (List.length col) d)) /\
  round (mean [true; false; true] * 100)%float 1 = 66.7%float.
Proof.
  intros rows col.
  split; [apply user_picks_In|].
  split; [intros r; apply String.eqb_eq|].
  split; [|split].
  - unfold weekly_accuracy. fold rows. now intros ->.
  - intros Hne. rewrite (weekly_accuracy_nonempty _ _ _ Hne). fold rows col.
    assert (Hlen : List.length col = List.length rows)
      by (unfold col; apply length_map).
    assert (Hpos : 1 <= List.length col)
      by (rewrite Hlen; destruct rows; [contradiction | simpl; lia]).
    split; [reflexivity|]. split.
    + intros H80. f_equal. apply accuracy_of_exact;
        [apply count_true_le | exact Hpos | now rewrite Hlen].
    + intros H400.
      destruct (accuracy_of_nearest (count_true col) (List.length col))
        as (d & Hd & Hn); [apply count_true_le | exact Hpos | now rewrite Hlen|].
      exists d. split; [now rewrite Hd | exact Hn].
  - vm_compute. reflexivity.
Qed.

#[warnings="-inexact-float"]
Lemma weekly_accuracy_value_witness :
  weekly_accuracy "Em" "1"
    [Picks.mk "Em" "1" "2024-01-14" "Game1" "BOS" "BOS";
     Picks.mk "Ma" "1" "2024-01-14" "Game1" "NYR" "BOS";
     Picks.mk "Em" "1" "2024-01-15" "Game2" "TOR" "MTL";
     Picks.mk "Em" "1" "2024-01-16" "Game3" "NYR" "NYR"]
  = Value (decimal1 667) /\
  decimal1 667 = 66.7%float.
Proof.
  split; [|vm_compute; reflexivity].
  apply (proj1 (proj2 (proj1 (proj2 (proj2 (proj2 (weekly_accuracy_value "Em" "1"
    [Picks.mk "Em" "1" "2024-01-14" "Game1" "BOS" "BOS";
     Picks.mk "Ma" "1" "2024-01-14" "Game1" "NYR" "BOS";
     Picks.mk "Em" "1" "2024-01-15" "Game2" "TOR" "MTL";
     Picks.mk "Em" "1" "2024-01-16" "Game3" "NYR" "NYR"]))))
    ltac:(discriminate)))).
  vm_compute. repeat constructor.
Defined.

(** With 23 correct picks out of 80 the exact percentage is 28.75, which
    rounds to 28.8 with a tie going to even as well as with a tie going up.
    In binary64 the mean times 100 is 28.749999999999996, below 28.75;
    scaled by ten it is below 287.5 and rounds to 287, and the page shows
    28.7. *)
Lemma weekly_accuracy_80_rows :
  unique_picksb (eighty_picks 23) = true /\
  List.length (user_picks "Em" "1" (eighty_picks 23)) = 80 /\
  count_true (map Correct (user_picks "Em" "1" (eighty_picks 23))) = 23 /\
  PrimFloat.ltb
    (mean (map Correct (user_picks "Em" "1" (eighty_picks 23))) * 100)%float
    28.75%float = true /\
  PrimFloat.ltb
    (mean (map Correct (user_picks "Em" "1" (eighty_picks 23))) * 100 * 10)%float
    287.5%float = true /\
  weekly_accuracy "Em" "1" (eighty_picks 23) = Value (decimal1 287) /\
  exact_tenths 23 80 = 288%Z /\
  round_half_up (1000 * 23) 80 = 288%Z /\
  PrimFloat.eqb (decimal1 287) (decimal1 288) = false.
Proof. repeat split; vm_compute; reflexivity. Qed.

(** ** Leaderboards *)

Lemma key_lt_trans a b c : key_lt a b -> key_lt b c -> key_lt a c.
Proof.
  unfold key_lt. intros H1 H2.
  apply String_as_OT.cmp_lt in H1. apply String_as_OT.cmp_lt in H2.
  apply String_as_OT.cmp_lt. eapply String_as_OT.lt_trans; eassumption.
Qed.

Lemma key_lt_irrefl a : ~ key_lt a a.
Proof.
  unfold key_lt. intros H. apply String_as_OT.cmp_lt in H.
  apply (String_as_OT.lt_not_eq _ _ H). reflexivity.
Qed.

Lemma In_insert_key x u keys :
  In x (insert_key u keys) <-> x = u \/ In x keys.
Proof.
  induction keys as [|k rest IH]; simpl.
  - intuition.
  - destruct (String.compare u k) eqn:C; simpl.
    + apply String.compare_eq_iff in C. subst. intuition.
    + intuition.
    + rewrite IH. intuition.
Qed.

Lemma insert_key_sorted u keys :
  StronglySorted key_lt keys -> StronglySorted key_lt (insert_key u keys).
Proof.
  induction keys as [|k rest IH]; intros S; simpl.
  - repeat constructor.
  - inversion S as [|? ? Srest Hall]; subst.
    destruct (String.compare u k) eqn:C.
    + exact S.
    + constructor; [exact S|].
      constructor; [exact C|].
      rewrite Forall_forall in *. intros x Hx.
      apply key_lt_trans with k; [exact C | now apply Hall].
    + constructor; [now apply IH|].
      rewrite Forall_forall in *. intros x Hx.
      apply In_insert_key in Hx. destruct Hx as [-> | Hx]; [|now apply Hall].
      unfold key_lt. rewrite String.compare_antisym, C. reflexivity.
Qed.

Lemma group_keys_sorted df : StronglySorted key_lt (group_keys df).
Proof.
  induction df as [|r df IH]; simpl; [constructor | now apply insert_key_sorted].
Qed.

Lemma In_group_keys u df :
  In u (group_keys df) <-> exists r, In r df /\ Picks.User r = u.
Proof.
  induction df as [|r df IH]; simpl.
  - split; [intros [] | intros (r & [] & _)].
  - rewrite In_insert_key, IH. split.
    + intros [-> | (r' & Hr' & E)]; eauto.
    + intros (r' & [<- | Hr'] & E); [left; now symmetry | right; eauto].
Qed.

Lemma sorted_NoDup keys : StronglySorted key_lt keys -> NoDup keys.
Proof.
  induction 1 as [|k rest S IH Hall]; constructor; [|exact IH].
  intros Hin. rewrite Forall_forall in Hall.
  exact (key_lt_irrefl k (Hall k Hin)).
Qed.

Lemma leaderboard_users df : map fst (leaderboard df) = group_keys df.
Proof.
  unfold leaderboard, groupby_User_Correct_mean.
  rewrite !map_map. simpl. apply map_id.
Qed.

Lemma In_leaderboard u a df :
  In (u, a) (leaderboard df) <->
  (exists r, In r df /\ Picks.User r = u) /\
  a = round (mean (map Correct (filter (fun r => (Picks.User r =? u)%string) df)) * 100)%float 1.
Proof.
  unfold leaderboard, groupby_User_Correct_mean. rewrite map_map. simpl.
  rewrite in_map_iff. split.
  - intros (u' & E & Hu'). injection E as <- <-.
    split; [now apply In_group_keys | reflexivity].
  - intros (Hu & ->). exists u. split; [reflexivity | now apply In_group_keys].
Qed.

Lemma filter_filter {A} (f g : A -> bool) l :
  filter f (filter g l) = filter (fun x => f x && g x) l.
Proof.
  induction l as [|x l IH]; simpl; [reflexivity|].
  destruct (g x); simpl; destruct (f x); simpl; now rewrite IH.
Qed.

Lemma user_of_week_picks u cw df_all :
  filter (fun r => Picks.User r =? u) (week_picks cw df_all)
  = user_picks u cw df_all.
Proof. unfold week_picks, user_picks. apply filter_filter. Qed.

(** C6 (as amended): leaderboard aggregation.  The weekly leaderboard is
    built from the rows of the current week and the cumulative leaderboard,
    in the same way, from all rows.  A leaderboard has one row per user
    that has a row in the frame, in the order of the user names, and the
    row of a user shows round(mean(Correct) * 100, 1) over the rows of that
    user as binary64 arithmetic computes it; in the weekly leaderboard this
    is the weekly accuracy of that user.  For a user with fewer than eighty
    rows it is the exact percentage rounded to one decimal, ties to even.
    Em with Correct = [true, true] and Ma with Correct = [true, false] in
    one week yield (Em, 100.0) and (Ma, 50.0). *)
Theorem leaderboard_aggregation cw df_all :
  (week_picks cw df_all = [] ->
   weekly_leaderboard cw df_all = Info "No picks recorded yet for this week.") /\
  (week_picks cw df_all <> [] ->
   weekly_leaderboard cw df_all = Value (leaderboard (week_picks cw df_all))) /\
  (df_all = [] -> cumulative_leaderboard df_all = Info "No picks recorded yet.") /\
  (df_all <> [] -> cumulative_leaderboard df_all = Value (leaderboard df_all)) /\
  (forall r, In r (week_picks cw df_all) <->
             In r df_all /\ Picks.Week r = cw) /\
  (forall df,
     NoDup (map fst (leaderboard df)) /\
     StronglySorted key_lt (map fst (leaderboard df)) /\
     (forall u, In u (map fst (leaderboard df)) <->
                exists r, In r df /\ Picks.User r = u) /\
     (forall u a, In (u, a) (leaderboard df) ->
        let col :=
          map Correct (filter (fun r => (Picks.User r =? u)%string) df) in
        a = round (mean col * 100)%float 1 /\
        (List.length col < 80 ->
         a = decimal1 (exact_tenths (count_true col) (List.length col))))) /\
  (forall u a, In (u, a) (leaderboard (week_picks cw df_all)) ->
     weekly_accuracy u cw df_all = Value a) /\
  (let df := [Picks.mk "Ma" "1" "2024-01-14" "Game1" "BOS" "BOS";
              Picks.mk "Em" "1" "2024-01-14" "Game1" "BOS" "BOS";
              Picks.mk "Ma" "1" "2024-01-15" "Game2" "TOR" "MTL";
              Picks.mk "Em" "1" "2024-01-15" "Game2" "MTL" "MTL"] in
   weekly_leaderboard "1" df = Value [("Em", 100%float); ("Ma", 50%float)] /\
   cumulative_leaderboard df = Value [("Em", 100%float); ("Ma", 50%float)]).
Proof.
  split; [unfold weekly_leaderboard; now intros ->|].
  split; [unfold weekly_leaderboard;
          destruct (week_picks cw df_all); [contradiction | reflexivity]|].
  split; [now intros ->|].
  split; [destruct df_all; [contradiction | reflexivity]|].
  split; [intros r; unfold week_picks;
          now rewrite filter_In, String.eqb_eq|].
  split; [|split].
  - intros df. rewrite leaderboard_users.
    split; [apply sorted_NoDup, group_keys_sorted|].
    split; [apply group_keys_sorted|].
    split; [intros u; apply In_group_keys|].
    intros u a H col. apply In_leaderboard in H.
    destruct H as ((r & Hr & Hu) & Ha). fold col in Ha.
    split; [exact Ha|]. intros H80. rewrite Ha.
    apply (accuracy_of_exact (count_true col) (List.length col));
      [apply count_true_le | | exact H80].
    assert (X : In r (filter (fun r => (Picks.User r =? u)%string) df))
      by (apply filter_In; split; [exact Hr | now apply String.eqb_eq]).
    unfold col. rewrite length_map.
    destruct (filter _ df); [inversion X | simpl; lia].
  - intros u a H. apply In_leaderboard in H.
    destruct H as ((r & Hr & Hu) & ->).
    rewrite user_of_week_picks.
    assert (Hne : user_picks u cw df_all <> []).
    { rewrite <- user_of_week_picks. intros E.
      assert (X : In r (filter (fun r => Picks.User r =? u)
                          (week_picks cw df_all)))
        by (apply filter_In; split; [exact Hr | now apply String.eqb_eq]).
      rewrite E in X. inversion X. }
    unfold weekly_accuracy.
    destruct (user_picks u cw df_all); [contradiction | reflexivity].
  - split; vm_compute; reflexivity.
Qed.

(** With 23 correct picks out of 80 both leaderboards show 28.7 for the
    user, where the exact percentage 28.75 rounds to 28.8. *)
Lemma leaderboard_80_rows :
  weekly_leaderboard "1" (eighty_picks 23) = Value [("Em", decimal1 287)] /\
  cumulative_leaderboard (eighty_picks 23) = Value [("Em", decimal1 287)] /\
  exact_tenths 23 80 = 288%Z /\
  round_half_up (1000 * 23) 80 = 288%Z /\
  PrimFloat.eqb (decimal1 287) (decimal1 288) = false.
Proof. repeat split; vm_compute; reflexivity. Qed.

Lemma leaderboard_aggregation_witness :
  weekly_leaderboard "2"
    [Picks.mk "Ma" "1" "2024-01-14" "Game1" "BOS" "BOS";
     Picks.mk "Em" "2" "2024-01-21" "Game9" "BOS" "BOS"]
  = Value [("Em", 100%float)].
Proof.
  rewrite (proj1 (proj2 (leaderboard_aggregation "2"
    [Picks.mk "Ma" "1" "2024-01-14" "Game1" "BOS" "BOS";
     Picks.mk "Em" "2" "2024-01-21" "Game9" "BOS" "BOS"]))
    ltac:(discriminate)).
  vm_compute. reflexivity.
Defined.

(** ** Rows with an empty pick and no winner *)

Lemma count_true_app a b : count_true (a ++ b) = count_true a + count_true b.
Proof. unfold count_true. now rewrite filter_app, length_app. Qed.

(** A correct row selected by a mask adds one to the count of correct rows
    and one to the number of rows of the selection. *)
Lemma correct_row_counted (m : Picks.row -> bool) r before after :
  m r = true -> Correct r = true ->
  count_true (map Correct (filter m (before ++ r :: after)))
  = S (count_true (map Correct (filter m (before ++ after)))) /\
  List.length (map Correct (filter m (before ++ r :: after)))
  = S (List.length (map Correct (filter m (before ++ after)))).
Proof.
  intros Hm Hc. rewrite !filter_app. simpl. rewrite Hm.
  rewrite !map_app, !count_true_app, !length_app. simpl. rewrite Hc.
  unfold count_true at 2. simpl. fold (count_true (map Correct (filter m after))).
  split; lia.
Qed.

(** C10: a row whose Pick and Winner are both empty is Correct.  In the
    weekly accuracy of its user, in the weekly leaderboard and in the
    cumulative leaderboard, the figure of that user is computed from a
    count of correct rows that includes this row: with the row the count is
    one more than without it.  A user with one wrong pick and one such row
    is shown 50.0 in all three places, and 0.0 without the row. *)
Theorem empty_pick_counts_as_correct r :
  Picks.Pick r = "" -> Picks.Winner r = "" ->
  Correct r = true /\
  (forall before after,
     let df_all := before ++ r :: after in
     let u := Picks.User r in
     let w := Picks.Week r in
     let col := map Correct (user_picks u w df_all) in
     let col0 := map Correct (user_picks u w (before ++ after)) in
     let all := map Correct (filter (fun x => Picks.User x =? u) df_all) in
     let all0 :=
       map Correct (filter (fun x => Picks.User x =? u) (before ++ after)) in
     (count_true col = S (count_true col0) /\
      List.length col = S (List.length col0) /\
      weekly_accuracy u w df_all
      = Value (accuracy_of (count_true col) (List.length col)) /\
      weekly_leaderboard w df_all = Value (leaderboard (week_picks w df_all)) /\
      In (u, accuracy_of (count_true col) (List.length col))
         (leaderboard (week_picks w df_all))) /\
     (count_true all = S (count_true all0) /\
      List.length all = S (List.length all0) /\
      cumulative_leaderboard df_all = Value (leaderboard df_all) /\
      In (u, accuracy_of (count_true all) (List.length all))
         (leaderboard df_all))) /\
  (let wrong := Picks.mk "Em" "1" "2024-01-14" "Game1" "BOS" "NYR" in
   let blank := Picks.mk "Em" "1" "2024-01-15" "Game2" "" "" in
   weekly_accuracy "Em" "1" [wrong; blank] = Value 50%float /\
   weekly_leaderboard "1" [wrong; blank] = Value [("Em", 50%float)] /\
   cumulative_leaderboard [wrong; blank] = Value [("Em", 50%float)] /\
   weekly_accuracy "Em" "1" [wrong] = Value 0%float /\
   weekly_leaderboard "1" [wrong] = Value [("Em", 0%float)] /\
   cumulative_leaderboard [wrong] = Value [("Em", 0%float)]).
Proof.
  intros Hp Hw.
  assert (Hc : Correct r = true)
    by (unfold Correct; rewrite Hp, Hw; reflexivity).
  split; [exact Hc|]. split.
  - intros before after df_all u w col col0 all all0.
    assert (Hin : In r df_all) by (apply in_or_app; right; now left).
    split.
    + destruct (correct_row_counted
                  (fun x => (Picks.User x =? u) && (Picks.Week x =? w))
                  r before after) as (Hk & Hn); [|exact Hc|].
      { unfold u, w. now rewrite !String.eqb_refl. }
      fold (user_picks u w (before ++ r :: after)) in Hk, Hn.
      fold (user_picks u w (before ++ after)) in Hk, Hn.
      assert (Hne : user_picks u w df_all <> []).
      { intros E.
        assert (X : In r (user_picks u w df_all))
          by (apply user_picks_In; repeat split; auto).
        rewrite E in X. inversion X. }
      assert (Hwk : In r (week_picks w df_all)).
      { apply filter_In. split; [exact Hin | apply String.eqb_refl]. }
      split; [exact Hk|]. split; [exact Hn|].
      split; [now apply weekly_accuracy_nonempty|]. split.
      * unfold weekly_leaderboard.
        destruct (week_picks w df_all); [inversion Hwk | reflexivity].
      * apply In_leaderboard. split; [exists r; auto|].
        rewrite user_of_week_picks. reflexivity.
    + destruct (correct_row_counted (fun x => Picks.User x =? u)
                  r before after) as (Hk & Hn); [|exact Hc|].
      { apply String.eqb_refl. }
      split; [exact Hk|]. split; [exact Hn|]. split.
      * unfold cumulative_leaderboard.
        destruct df_all; [inversion Hin | reflexivity].
      * apply In_leaderboard. split; [exists r; auto | reflexivity].
  - repeat split; vm_compute; reflexivity.
Qed.

Lemma empty_pick_counts_as_correct_witness :
  Correct (Picks.mk "Em" "1" "2024-01-15" "Game2" "" "") = true.
Proof.
  apply (proj1 (empty_pick_counts_as_correct
                  (Picks.mk "Em" "1" "2024-01-15" "Game2" "" "")
                  eq_refl eq_refl)).
Defined.

(** ** Reading back what was written *)



Section Strip.

Variable chars : list (list ascii).
Hypothesis chars_not_empty : forall p, In p chars -> p <> [].







End Strip.






Example strip_examples :
  strip "  User " = "User" /\ strip "Week Start" = "Week Start" /\
  strip "" = "" /\
  strip (String (ascii_of_nat 9) (String (ascii_of_nat 194)
           (String (ascii_of_nat 160) "Pick"))) = "Pick".
Proof. repeat split. Qed.

(** ** Laws of [save_pick] and [save_winner] *)

Lemma loc_set_none mask f df :
  existsb mask df = false -> loc_set mask f df = df.
Proof.
  unfold loc_set. induction df as [|r df IH]; simpl; [reflexivity|].
  intros E. apply orb_false_iff in E. destruct E as (-> & E).
  now rewrite IH.
Qed.

Lemma existsb_loc_set mask f df :
  (forall r, mask (f r) = mask r) ->
  existsb mask (loc_set mask f df) = existsb mask df.
Proof.
  intros H. unfold loc_set. induction df as [|r df IH]; simpl; [reflexivity|].
  rewrite IH. f_equal. destruct (mask r) eqn:E; [now rewrite H | exact E].
Qed.

Lemma loc_set_loc_set mask f g df :
  (forall r, mask (f r) = mask r) ->
  loc_set mask g (loc_set mask f df) = loc_set mask (fun r => g (f r)) df.
Proof.
  intros H. unfold loc_set. rewrite map_map. apply map_ext. intros r.
  destruct (mask r) eqn:E; [now rewrite H, E | now rewrite E].
Qed.

Lemma exists_mask_new u w d g p : exists_mask u w g (Picks.mk u w d g p "") = true.
Proof. apply exists_mask_true. simpl. auto. Qed.

(** X2: a second [save_pick] for the same (user, week, game) absorbs the
    first: the table is the one a single call with the later pick would
    have stored, with the date of the first call.  In particular saving the
    same pick twice is saving it once. *)
Theorem save_pick_absorbs user week game date1 pick1 date2 pick2 df :
  save_pick user week date2 game pick2
    (save_pick user week date1 game pick1 df)
  = save_pick user week date1 game pick2 df.
Proof.
  unfold save_pick at 2 3.
  destruct (existsb (exists_mask user week game) df) eqn:E.
  - unfold save_pick.
    rewrite existsb_loc_set, E by (intros; apply exists_mask_set_Pick).
    rewrite loc_set_loc_set by (intros; apply exists_mask_set_Pick).
    reflexivity.
  - unfold save_pick. rewrite existsb_app, E. simpl.
    rewrite exists_mask_new. simpl.
    unfold loc_set. rewrite map_app. simpl. rewrite exists_mask_new.
    fold (loc_set (exists_mask user week game) (Picks.set_Pick pick2) df).
    now rewrite (loc_set_none _ _ _ E).
Qed.

Lemma filter_map_fixed {A} (m : A -> bool) (h : A -> A) l :
  (forall x, m (h x) = m x) -> (forall x, m x = true -> h x = x) ->
  filter m (map h l) = filter m l.
Proof.
  intros H1 H2. induction l as [|x l IH]; simpl; [reflexivity|].
  rewrite H1. destruct (m x) eqn:E; [now rewrite IH, H2 | exact IH].
Qed.

(** A mask that does not select the saved key and does not look at Pick
    selects the same rows before and after [save_pick]. *)
Lemma filter_save_pick (m : Picks.row -> bool) user week date game pick df :
  (forall p r, m (Picks.set_Pick p r) = m r) ->
  (forall r, exists_mask user week game r = true -> m r = false) ->
  filter m (save_pick user week date game pick df) = filter m df.
Proof.
  intros Hp Hk. unfold save_pick.
  destruct (existsb (exists_mask user week game) df).
  - unfold loc_set. apply filter_map_fixed.
    + intros r. destruct (exists_mask user week game r); [apply Hp | reflexivity].
    + intros r Hm. destruct (exists_mask user week game r) eqn:E;
        [|reflexivity].
      apply Hk in E. congruence.
  - rewrite filter_app. simpl.
    rewrite (Hk _ (exists_mask_new user week date game pick)).
    apply app_nil_r.
Qed.

Lemma index_Some x opts i :
  index x opts = Some i -> i < List.length opts /\ nth i opts "" = x.
Proof.
  revert i. induction opts as [|o rest IH]; intros i E; [discriminate|].
  simpl in E. destruct (o =? x) eqn:Eo.
  - injection E as <-. apply String.eqb_eq in Eo. simpl. split; [lia | exact Eo].
  - destruct (index x rest) as [j|]; [|discriminate]. injection E as <-.
    destruct (IH j eq_refl) as (Hj & Hn). simpl. split; [lia | exact Hn].
Qed.

Lemma index_None x opts : index x opts = None <-> ~ In x opts.
Proof.
  induction opts as [|o rest IH]; simpl; [tauto|].
  destruct (o =? x) eqn:Eo.
  - apply String.eqb_eq in Eo. split; [discriminate | tauto].
  - apply String.eqb_neq in Eo.
    destruct (index x rest) as [j|].
    + split; [discriminate|]. intros H. exfalso. apply H. right.
      destruct (in_dec string_dec x rest) as [Hin | Hn]; [exact Hin|].
      apply IH in Hn. discriminate.
    + split; [|reflexivity]. intros _ [H | H]; [contradiction|].
      now apply (proj1 IH).
Qed.

(** X3: looking a pick up after saving it.  After [save_pick] the pick
    read back for the same (user, week, game) is the saved one, and the
    radio of the next run is pre-selected on it when it is one of the
    options; the pick read back for any other key is what it was. *)
Theorem current_pick_save_pick user week date game pick df :
  current_pick (save_pick user week date game pick df) user week game = pick /\
  (forall opts, In pick opts ->
     nth (radio_index opts pick) ("" :: opts) "" = pick) /\
  (forall user' week' game',
     (user', week', game') <> (user, week, game) ->
     current_pick (save_pick user week date game pick df) user' week' game'
     = current_pick df user' week' game').
Proof.
  split; [|split].
  - unfold current_pick.
    destruct (filter (exists_mask user week game)
                (save_pick user week date game pick df)) as [|r rest] eqn:F.
    + exfalso.
      pose proof (rows_for_save_pick user week game user week date game pick df)
        as N.
      unfold rows_for at 1 in N. rewrite F, exists_mask_new in N.
      cbn [List.length] in N. lia.
    + assert (Hin : In r (filter (exists_mask user week game)
                            (save_pick user week date game pick df)))
        by (rewrite F; now left).
      apply filter_In in Hin. destruct Hin as (Hin & Hm).
      now apply (In_save_pick_Pick user week date game pick df).
  - intros opts Hin. unfold radio_index.
    destruct (index pick opts) as [i|] eqn:E.
    + apply index_Some in E. rewrite Nat.add_1_r. simpl. apply E.
    + apply index_None in E. contradiction.
  - intros user' week' game' Hk. unfold current_pick.
    rewrite filter_save_pick; [reflexivity | reflexivity |].
    intros r Hm. apply exists_mask_true in Hm. destruct Hm as (Hu & Hw & Hg).
    destruct (exists_mask user' week' game' r) eqn:E; [|reflexivity].
    apply exists_mask_true in E. destruct E as (Hu' & Hw' & Hg').
    exfalso. apply Hk. congruence.
Qed.

Lemma current_pick_save_pick_witness :
  current_pick
    (save_pick "Em" "1" "2024-01-14" "Game1" "NYR"
       [Picks.mk "Ma" "1" "2024-01-14" "Game1" "BOS" ""])
    "Ma" "1" "Game1" = "BOS".
Proof.
  rewrite (proj2 (proj2 (current_pick_save_pick "Em" "1" "2024-01-14" "Game1"
                           "NYR" [Picks.mk "Ma" "1" "2024-01-14" "Game1" "BOS" ""]))
             "Ma" "1" "Game1" ltac:(discriminate)).
  reflexivity.
Defined.

(** X4: the index handed to the radio and to the winner select box is
    always a position of the list [[""] + options]: the position of the
    first option equal to the stored value, shifted by one, when the value
    is an option, and 0, the empty entry, when it is not. *)
Theorem preselected_index opts stored :
  selectbox_index opts stored < List.length ("" :: opts) /\
  radio_index opts stored = selectbox_index opts stored /\
  (In stored opts ->
   exists i, index stored opts = Some i /\
             selectbox_index opts stored = S i /\
             nth i opts "" = stored /\
             (forall j, j < i -> nth j opts "" <> stored) /\
             displayed_winner opts stored = stored) /\
  (~ In stored opts ->
   selectbox_index opts stored = 0 /\ displayed_winner opts stored = "").
Proof.
  unfold displayed_winner, radio_index, selectbox_index.
  destruct (index stored opts) as [i|] eqn:E.
  - destruct (index_Some _ _ _ E) as (Hi & Hn).
    split; [simpl; lia|]. split; [reflexivity|]. split.
    + intros _. exists i. rewrite Nat.add_1_r. simpl.
      repeat split; auto.
      clear Hi Hn. revert i E.
      induction opts as [|o rest IH]; intros i E j Hj; [discriminate|].
      simpl in E. destruct (o =? stored) eqn:Eo.
      * injection E as <-. lia.
      * destruct (index stored rest) as [k|]; [|discriminate].
        injection E as <-. destruct j as [|j]; simpl.
        -- now apply String.eqb_neq.
        -- apply (IH k eq_refl). lia.
    + intros Hn'. exfalso. apply Hn'. rewrite <- Hn. apply nth_In. exact Hi.
  - split; [simpl; lia|]. split; [reflexivity|]. split.
    + intros Hin. apply index_None in E. contradiction.
    + intros _. split; reflexivity.
Qed.

Lemma preselected_index_witness :
  displayed_winner ["BOS"; "NYR"] "NYR" = "NYR" /\
  displayed_winner ["BOS"; "NYR"] "TOR" = "".
Proof.
  split.
  - destruct (proj1 (proj2 (proj2 (preselected_index ["BOS"; "NYR"] "NYR")))
                ltac:(simpl; auto)) as (i & _ & _ & _ & _ & H).
    exact H.
  - apply (proj2 (proj2 (proj2 (preselected_index ["BOS"; "NYR"] "TOR")))).
    intros [H | [H | []]]; discriminate.
Defined.

Lemma filter_save_winner (m : Picks.row -> bool) game winner df :
  (forall x r, m (Picks.set_Winner x r) = m r) ->
  (forall r, m r = true -> (Picks.Game r =? game) = false) ->
  filter m (save_winner game winner df) = filter m df.
Proof.
  intros Hw Hg. unfold save_winner, loc_set. apply filter_map_fixed.
  - intros r. destruct (Picks.Game r =? game); [apply Hw | reflexivity].
  - intros r Hm. now rewrite (Hg r Hm).
Qed.

(** X5: laws of [save_winner].  Recording a second winner for a game
    overwrites the first; recordings for two different games commute; and
    recording a winner for one game leaves the current winner of every
    other game as it was. *)
Theorem save_winner_laws game winner df :
  (forall winner0,
     save_winner game winner (save_winner game winner0 df)
     = save_winner game winner df) /\
  (forall game' winner',
     game' <> game ->
     save_winner game winner (save_winner game' winner' df)
     = save_winner game' winner' (save_winner game winner df)) /\
  (forall game',
     game' <> game ->
     current_winner (save_winner game winner df) game'
     = current_winner df game').
Proof.
  split; [|split].
  - intros winner0. unfold save_winner. rewrite loc_set_loc_set by reflexivity.
    reflexivity.
  - intros game' winner' Hne. unfold save_winner, loc_set.
    rewrite !map_map. apply map_ext. intros r.
    destruct (Picks.Game r =? game') eqn:E1;
      destruct (Picks.Game r =? game) eqn:E2; simpl;
      rewrite ?E1, ?E2; try reflexivity.
    apply String.eqb_eq in E1, E2. congruence.
  - intros game' Hne. unfold current_winner.
    rewrite filter_save_winner; [reflexivity | reflexivity |].
    intros r Hr. apply String.eqb_eq in Hr. apply String.eqb_neq. congruence.
Qed.

Lemma save_winner_laws_witness :
  current_winner
    (save_winner "Game2" "TOR"
       [Picks.mk "Em" "1" "2024-01-14" "Game1" "BOS" "BOS";
        Picks.mk "Em" "1" "2024-01-15" "Game2" "TOR" ""])
    "Game1" = "BOS".
Proof.
  rewrite (proj2 (proj2 (save_winner_laws "Game2" "TOR"
                           [Picks.mk "Em" "1" "2024-01-14" "Game1" "BOS" "BOS";
                            Picks.mk "Em" "1" "2024-01-15" "Game2" "TOR" ""]))
             "Game1" ltac:(discriminate)).
  reflexivity.
Defined.

(** X6: saving a pick and recording a winner commute when the pick updates
    an existing row, or when the two are about different games; the table
    is then the same in either order. *)
Theorem save_pick_save_winner_commute user week date game pick game' winner df :
  existsb (exists_mask user week game) df = true \/ game <> game' ->
  save_pick user week date game pick (save_winner game' winner df)
  = save_winner game' winner (save_pick user week date game pick df).
Proof.
  intros H. unfold save_pick.
  assert (E : existsb (exists_mask user week game) (save_winner game' winner df)
              = existsb (exists_mask user week game) df).
  { clear H. unfold save_winner, loc_set.
    induction df as [|r df IH]; simpl; [reflexivity|].
    rewrite IH. f_equal. now destruct (Picks.Game r =? game'). }
  rewrite E. destruct (existsb (exists_mask user week game) df) eqn:X.
  - unfold save_winner, loc_set. rewrite !map_map. apply map_ext. intros r.
    destruct (Picks.Game r =? game') eqn:E1;
      destruct (exists_mask user week game r) eqn:E2;
      rewrite ?exists_mask_set_Winner, ?E2;
      cbn [Picks.Game Picks.set_Pick Picks.set_Winner];
      rewrite ?E1; reflexivity.
  - destruct H as [H | H]; [discriminate|].
    unfold save_winner, loc_set. rewrite map_app. simpl.
    apply String.eqb_neq in H. now rewrite H.
Qed.

Lemma save_pick_save_winner_commute_witness :
  save_pick "Em" "1" "2024-01-14" "Game1" "NYR"
    (save_winner "Game2" "TOR" [])
  = save_winner "Game2" "TOR"
      (save_pick "Em" "1" "2024-01-14" "Game1" "NYR" []).
Proof.
  apply (save_pick_save_winner_commute "Em" "1" "2024-01-14" "Game1" "NYR"
           "Game2" "TOR" []).
  right. discriminate.
Defined.

(** X7: a pick saved after the winner of its game was recorded is never
    graded.  When the rows of a game all carry its winner and a user
    without a row for that game saves a pick, the new row gets an empty
    Winner and is not Correct, whatever the pick; the current winner read
    for the select box is still the recorded one, so selecting it again
    fires no save and the row stays ungraded. *)
Theorem late_pick_not_graded user week date game pick winner df :
  existsb (fun r => Picks.Game r =? game) df = true ->
  (forall r, In r df -> Picks.Game r = game -> Picks.Winner r = winner) ->
  existsb (exists_mask user week game) df = false ->
  pick <> "" ->
  let df' := save_pick user week date game pick df in
  df' = df ++ [Picks.mk user week date game pick ""] /\
  Correct (Picks.mk user week date game pick "") = false /\
  current_winner df' game = winner /\
  winner_changed game winner (current_winner df' game) df' = None.
Proof.
  intros Hg Hw Hn Hp df'.
  assert (D : df' = df ++ [Picks.mk user week date game pick ""])
    by (unfold df', save_pick; now rewrite Hn).
  assert (C : current_winner df' game = winner).
  { rewrite D. unfold current_winner. rewrite filter_app.
    apply existsb_exists in Hg. destruct Hg as (r & Hr & Hgr).
    assert (X : In r (filter (fun r => Picks.Game r =? game) df))
      by (apply filter_In; auto).
    destruct (filter (fun r => Picks.Game r =? game) df) as [|r0 rest] eqn:F;
      [inversion X|].
    simpl.
    assert (X0 : In r0 (filter (fun r => Picks.Game r =? game) df))
      by (rewrite F; now left).
    apply filter_In in X0. destruct X0 as (Hin0 & Hg0).
    apply String.eqb_eq in Hg0. now apply Hw. }
  split; [exact D|]. split.
  - unfold Correct. simpl. now apply String.eqb_neq.
  - split; [exact C|]. unfold winner_changed.
    now rewrite C, String.eqb_refl.
Qed.

Lemma late_pick_not_graded_witness :
  current_winner
    (save_pick "Ma" "1" "2024-01-14" "Game1" "BOS"
       [Picks.mk "Em" "1" "2024-01-14" "Game1" "BOS" "BOS"])
    "Game1" = "BOS" /\
  Correct (Picks.mk "Ma" "1" "2024-01-14" "Game1" "BOS" "") = false.
Proof.
  pose proof (late_pick_not_graded "Ma" "1" "2024-01-14" "Game1" "BOS" "BOS"
                [Picks.mk "Em" "1" "2024-01-14" "Game1" "BOS" "BOS"]
                eq_refl) as H.
  destruct H as (_ & H1 & H2 & _).
  - intros r [<- | []] _. reflexivity.
  - reflexivity.
  - discriminate.
  - split; [exact H2 | exact H1].
Defined.

(** ** More on the current week *)

Lemma week_schedule_In cw df r :
  In r (week_schedule cw df) <-> In r df /\ Schedule.Week r = cw.
Proof. unfold week_schedule. now rewrite filter_In, String.eqb_eq. Qed.

(** With a consistent schedule the status is never an exception. *)
Lemma week_status_consistent today cw df :
  consistent_schedule df -> exists st, week_status today (week_schedule cw df) = Ok st.
Proof.
  intros (Hparsed & _). unfold week_status.
  destruct (week_schedule cw df) as [|r rest] eqn:W; [eauto|].
  assert (Hr : In r (week_schedule cw df)) by (rewrite W; now left).
  apply week_schedule_In in Hr. destruct Hr as (Hr & _).
  specialize (Hparsed r Hr).
  destruct (Schedule.WeekStartDate r) as [d|]; [|contradiction].
  destruct (today <? d + 7)%Z; eauto.
Qed.

Lemma current_week_never_raises today df :
  exists v, current_week today df = Ok v.
Proof.
  destruct (existsb (le_today today) df) eqn:E.
  - destruct (current_week_found today df E) as (r & s & _ & _ & _ & _ & H).
    eauto.
  - rewrite (current_week_TBD today df E). eauto.
Qed.

(** X8: with a consistent schedule (every row has a parsed start date and
    the rows of a week share it), resolving the week and computing its
    status raise no exception, on any day.  When some week has started, the
    status shown is decided by the start date of the resolved week, the
    latest one not after today: Open during the seven days from that date
    and Closed afterwards. *)
Theorem consistent_schedule_status today df :
  consistent_schedule df ->
  (exists cw msgs st,
     current_week today df = Ok (cw, msgs) /\
     week_status today (week_schedule cw df) = Ok st) /\
  (existsb (le_today today) df = true ->
   exists cw start,
     current_week today df = Ok (cw, []) /\
     current_week_start today df = Some start /\
     (start <= today)%Z /\
     week_status today (week_schedule cw df)
     = Ok (if (today <? start + 7)%Z then Open else Closed)).
Proof.
  intros Hc. split.
  - destruct (current_week_never_raises today df) as ((cw & msgs) & Hcw).
    destruct (week_status_consistent today cw df Hc) as (st & Hst).
    exists cw, msgs, st. split; assumption.
  - intros E.
    destruct (current_week_found today df E)
      as (r & start & Hr & Hs & Hle & Hmax & Hcw).
    exists (Schedule.Week r), start. split; [exact Hcw|].
    assert (Hstart : current_week_start today df = Some start).
    { unfold current_week_start.
      pose proof (series_max_spec
                    (map Schedule.WeekStartDate (past_weeks today df))) as M.
      assert (Hp : In (Some start)
                     (map Schedule.WeekStartDate (past_weeks today df))).
      { apply in_map_iff. exists r. split; [exact Hs|].
        apply filter_In. split; [exact Hr|]. apply le_today_true. eauto. }
      destruct (series_max _) as [m|]; [|now apply M in Hp].
      destruct M as (Hin & Hm). f_equal.
      apply in_map_iff in Hin. destruct Hin as (rm & Hrm & Hpm).
      apply filter_In in Hpm. destruct Hpm as (Hdf & Hlt).
      apply le_today_true in Hlt. destruct Hlt as (d & Hd & Hdt).
      assert (d = m) by congruence. subst d.
      specialize (Hmax rm m Hdf Hrm Hdt). specialize (Hm start Hp). lia. }
    split; [exact Hstart|]. split; [exact Hle|].
    unfold week_status.
    destruct (week_schedule (Schedule.Week r) df) as [|r0 rest] eqn:W.
    + exfalso.
      assert (X : In r (week_schedule (Schedule.Week r) df))
        by (apply week_schedule_In; auto).
      rewrite W in X. inversion X.
    + assert (X : In r0 (week_schedule (Schedule.Week r) df))
        by (rewrite W; now left).
      apply week_schedule_In in X. destruct X as (Hr0 & Hw0).
      destruct Hc as (_ & Hsame).
      rewrite (Hsame r0 r Hr0 Hr Hw0), Hs.
      now destruct (today <? start + 7)%Z.
Qed.

Lemma consistent_schedule_status_witness :
  exists cw msgs st,
    current_week (ymd 2024 1 16)
      [Schedule.mk "1" (Some (ymd 2024 1 7)) "2024-01-08" "Game1" "BOS" "NYR";
       Schedule.mk "2" (Some (ymd 2024 1 14)) "2024-01-15" "Game2" "TOR" "MTL"]
    = Ok (cw, msgs) /\
    week_status (ymd 2024 1 16)
      (week_schedule cw
         [Schedule.mk "1" (Some (ymd 2024 1 7)) "2024-01-08" "Game1" "BOS" "NYR";
          Schedule.mk "2" (Some (ymd 2024 1 14)) "2024-01-15" "Game2" "TOR" "MTL"])
    = Ok st.
Proof.
  apply (proj1 (consistent_schedule_status (ymd 2024 1 16)
    [Schedule.mk "1" (Some (ymd 2024 1 7)) "2024-01-08" "Game1" "BOS" "NYR";
     Schedule.mk "2" (Some (ymd 2024 1 14)) "2024-01-15" "Game2" "TOR" "MTL"]
    ltac:(split;
          [ intros r [<- | [<- | []]]; discriminate
          | intros r r' [<- | [<- | []]] [<- | [<- | []]] E;
            try reflexivity; discriminate ]))).
Defined.

Lemma starts_on_not_started today df r :
  le_today today r = false ->
  starts_on (current_week_start today df) r = false.
Proof.
  intros Hr. unfold starts_on, current_week_start.
  destruct (Schedule.WeekStartDate r) as [d|] eqn:D; [|reflexivity].
  pose proof (series_max_spec
                (map Schedule.WeekStartDate (past_weeks today df))) as M.
  destruct (series_max _) as [m|]; [|reflexivity].
  destruct M as (Hin & _).
  apply in_map_iff in Hin. destruct Hin as (rm & Hrm & Hpm).
  apply filter_In in Hpm. destruct Hpm as (_ & Hlt).
  apply le_today_true in Hlt. destruct Hlt as (d' & Hd' & Hdt).
  assert (d' = m) by congruence. subst d'.
  unfold le_today in Hr. rewrite D in Hr. apply Z.leb_gt in Hr.
  apply Z.eqb_neq. lia.
Qed.

(** X9: rows of weeks that have not started, or whose start date could
    not be parsed, do not change the current week, wherever they stand in
    the schedule. *)
Theorem current_week_ignores_future today df1 extra df2 :
  (forall r, In r extra -> le_today today r = false) ->
  current_week today (df1 ++ extra ++ df2) = current_week today (df1 ++ df2).
Proof.
  intros Hx.
  assert (P : past_weeks today (df1 ++ extra ++ df2)
              = past_weeks today (df1 ++ df2)).
  { unfold past_weeks. rewrite !filter_app.
    replace (filter (le_today today) extra) with (@nil Schedule.row);
      [reflexivity|].
    symmetry. induction extra as [|r extra IH]; [reflexivity|]. simpl.
    rewrite (Hx r (or_introl eq_refl)). apply IH.
    intros r' Hr'. apply Hx. now right. }
  unfold current_week. rewrite P.
  destruct (past_weeks today (df1 ++ df2)) as [|p ps] eqn:Q; [reflexivity|].
  rewrite <- Q.
  fold (current_week_start today (df1 ++ df2)).
  rewrite !filter_app.
  replace (filter (starts_on (current_week_start today (df1 ++ df2))) extra)
    with (@nil Schedule.row); [reflexivity|].
  symmetry. clear P. induction extra as [|r extra IH]; [reflexivity|]. simpl.
  rewrite (starts_on_not_started today (df1 ++ df2) r
             (Hx r (or_introl eq_refl))).
  apply IH. intros r' Hr'. apply Hx. now right.
Qed.

Lemma current_week_ignores_future_witness :
  current_week (ymd 2024 1 16)
    ([Schedule.mk "1" (Some (ymd 2024 1 7)) "2024-01-08" "Game1" "BOS" "NYR"]
     ++ [Schedule.mk "9" (Some (ymd 2024 3 3)) "2024-03-04" "Game7" "TOR" "MTL";
         Schedule.mk "?" None "" "Game8" "BOS" "TOR"]
     ++ [Schedule.mk "2" (Some (ymd 2024 1 14)) "2024-01-15" "Game2" "TOR" "MTL"])
  = Ok ("2", []).
Proof.
  rewrite (current_week_ignores_future (ymd 2024 1 16)
    [Schedule.mk "1" (Some (ymd 2024 1 7)) "2024-01-08" "Game1" "BOS" "NYR"]
    [Schedule.mk "9" (Some (ymd 2024 3 3)) "2024-03-04" "Game7" "TOR" "MTL";
     Schedule.mk "?" None "" "Game8" "BOS" "TOR"]
    [Schedule.mk "2" (Some (ymd 2024 1 14)) "2024-01-15" "Game2" "TOR" "MTL"]).
  - reflexivity.
  - intros r [<- | [<- | []]]; reflexivity.
Defined.

(** X10: the current week never moves back as days pass: once a week has
    started, the week resolved on a later day starts on the same date or
    on a later one. *)
Theorem current_week_monotone today today' df :
  (today <= today')%Z ->
  existsb (le_today today) df = true ->
  exists r r' start start',
    In r df /\ In r' df /\
    current_week today df = Ok (Schedule.Week r, []) /\
    current_week today' df = Ok (Schedule.Week r', []) /\
    Schedule.WeekStartDate r = Some start /\
    Schedule.WeekStartDate r' = Some start' /\
    (start <= start' <= today')%Z.
Proof.
  intros Hle E.
  destruct (current_week_found today df E)
    as (r & start & Hr & Hs & Hst & _ & Hcw).
  assert (E' : existsb (le_today today') df = true).
  { apply existsb_exists. exists r. split; [exact Hr|].
    apply le_today_true. exists start. split; [exact Hs | lia]. }
  destruct (current_week_found today' df E')
    as (r' & start' & Hr' & Hs' & Hst' & Hmax' & Hcw').
  exists r, r', start, start'. repeat split; auto.
  apply (Hmax' r start Hr Hs). lia.
Qed.

Lemma current_week_monotone_witness :
  exists r r' start start',
    In r [Schedule.mk "1" (Some (ymd 2024 1 7)) "2024-01-08" "Game1" "BOS" "NYR";
          Schedule.mk "2" (Some (ymd 2024 1 14)) "2024-01-15" "Game2" "TOR" "MTL"]
    /\
    In r' [Schedule.mk "1" (Some (ymd 2024 1 7)) "2024-01-08" "Game1" "BOS" "NYR";
           Schedule.mk "2" (Some (ymd 2024 1 14)) "2024-01-15" "Game2" "TOR" "MTL"]
    /\
    current_week (ymd 2024 1 10)
      [Schedule.mk "1" (Some (ymd 2024 1 7)) "2024-01-08" "Game1" "BOS" "NYR";
       Schedule.mk "2" (Some (ymd 2024 1 14)) "2024-01-15" "Game2" "TOR" "MTL"]
    = Ok (Schedule.Week r, []) /\
    current_week (ymd 2024 1 16)
      [Schedule.mk "1" (Some (ymd 2024 1 7)) "2024-01-08" "Game1" "BOS" "NYR";
       Schedule.mk "2" (Some (ymd 2024 1 14)) "2024-01-15" "Game2" "TOR" "MTL"]
    = Ok (Schedule.Week r', []) /\
    Schedule.WeekStartDate r = Some start /\
    Schedule.WeekStartDate r' = Some start' /\
    (start <= start' <= ymd 2024 1 16)%Z.
Proof.
  apply (current_week_monotone (ymd 2024 1 10) (ymd 2024 1 16)
    [Schedule.mk "1" (Some (ymd 2024 1 7)) "2024-01-08" "Game1" "BOS" "NYR";
     Schedule.mk "2" (Some (ymd 2024 1 14)) "2024-01-15" "Game2" "TOR" "MTL"]).
  - apply Z.leb_le. reflexivity.
  - reflexivity.
Defined.

(** X11: the helper [get_week_status], which the page does not call, opens
    a week that has started on its start day only, and whenever it says
    Open the seven-day rule of the page says Open as well. *)
Theorem get_week_status_one_day today week_start :
  (week_start <= today)%Z ->
  (get_week_status today week_start = Open <-> today = week_start) /\
  (get_week_status today week_start = Open ->
   forall r rest,
     Schedule.WeekStartDate r = Some week_start ->
     week_status today (r :: rest) = Ok Open).
Proof.
  intros Hle. unfold get_week_status.
  destruct (Z.ltb_spec today (week_start + 1)) as [L | L].
  - split; [split; [intros _; lia | reflexivity]|].
    intros _ r rest Hr. simpl. rewrite Hr.
    destruct (Z.ltb_spec today (week_start + 7)); [reflexivity | lia].
  - split; [split; [discriminate | intros ->; lia] | discriminate].
Qed.

Lemma get_week_status_one_day_witness :
  get_week_status (ymd 2024 1 14) (ymd 2024 1 14) = Open.
Proof.
  apply (proj1 (get_week_status_one_day (ymd 2024 1 14) (ymd 2024 1 14)
                  ltac:(apply Z.leb_le; reflexivity))).
  reflexivity.
Defined.

(** ** More on the statistics *)

Lemma Permutation_filter' {A} (f : A -> bool) l l' :
  Permutation l l' -> Permutation (filter f l) (filter f l').
Proof.
  induction 1 as [|x l l' _ IH|x y l|l l' l'' _ IH1 _ IH2]; simpl.
  - constructor.
  - destruct (f x); [now constructor | exact IH].
  - destruct (f x), (f y); try apply Permutation_refl. constructor.
  - now transitivity (filter f l').
Qed.

Lemma mean_Permutation col col' : Permutation col col' -> mean col = mean col'.
Proof.
  intros H. unfold mean, count_true.
  rewrite (Permutation_length (Permutation_filter' (fun b => b) _ _ H)).
  now rewrite (Permutation_length H).
Qed.

Lemma sorted_keys_unique l1 l2 :
  StronglySorted key_lt l1 -> StronglySorted key_lt l2 ->
  (forall x, In x l1 <-> In x l2) -> l1 = l2.
Proof.
  intros S1. revert l2. induction S1 as [|a l1 S1 IH H1]; intros l2 S2 Hiff.
  - destruct l2 as [|b l2]; [reflexivity|].
    exfalso. apply (proj2 (Hiff b)). now left.
  - destruct S2 as [|b l2 S2 H2].
    + exfalso. apply (proj1 (Hiff a)). now left.
    + rewrite Forall_forall in H1, H2.
      assert (a = b).
      { destruct (proj1 (Hiff a) (or_introl eq_refl)) as [E | Ha]; [now symmetry|].
        destruct (proj2 (Hiff b) (or_introl eq_refl)) as [E | Hb]; [exact E|].
        exfalso. apply (key_lt_irrefl a).
        apply key_lt_trans with b; [now apply H1 | now apply H2]. }
      subst b. f_equal. apply IH; [exact S2|].
      intros x. split; intros Hx.
      * destruct (proj1 (Hiff x) (or_intror Hx)) as [E | Hx']; [|exact Hx'].
        subst x. exfalso. exact (key_lt_irrefl a (H1 a Hx)).
      * destruct (proj2 (Hiff x) (or_intror Hx)) as [E | Hx']; [|exact Hx'].
        subst x. exfalso. exact (key_lt_irrefl a (H2 a Hx)).
Qed.

Lemma leaderboard_Permutation df df' :
  Permutation df df' -> leaderboard df = leaderboard df'.
Proof.
  intros H. unfold leaderboard, groupby_User_Correct_mean.
  assert (K : group_keys df = group_keys df').
  { apply sorted_keys_unique; try apply group_keys_sorted.
    intros u. rewrite !In_group_keys.
    split; intros (r & Hr & Hu); exists r; split; auto.
    - now apply (Permutation_in _ H).
    - now apply (Permutation_in _ (Permutation_sym H)). }
  rewrite K, !map_map. apply map_ext. intros u. simpl.
  rewrite (mean_Permutation _ _
             (Permutation_map Correct
                (Permutation_filter' (fun r => Picks.User r =? u) _ _ H))).
  reflexivity.
Qed.

Lemma Permutation_nil_iff {A} (l l' : list A) :
  Permutation l l' -> (l = [] <-> l' = []).
Proof.
  intros H. split; intros ->.
  - now apply Permutation_nil.
  - now apply Permutation_nil, Permutation_sym.
Qed.

(** X12: the statistics do not depend on the order of the rows of the
    sheet: two tables with the same rows in different orders show the same
    weekly accuracy for every user and week, the same weekly leaderboard
    and the same cumulative leaderboard. *)
Theorem statistics_ignore_row_order df df' :
  Permutation df df' ->
  (forall u cw, weekly_accuracy u cw df = weekly_accuracy u cw df') /\
  (forall cw, weekly_leaderboard cw df = weekly_leaderboard cw df') /\
  cumulative_leaderboard df = cumulative_leaderboard df'.
Proof.
  intros H. split; [|split].
  - intros u cw. unfold weekly_accuracy.
    assert (P : Permutation (user_picks u cw df) (user_picks u cw df'))
      by (apply Permutation_filter', H).
    pose proof (Permutation_nil_iff _ _ P) as N.
    pose proof (mean_Permutation _ _ (Permutation_map Correct P)) as M.
    destruct (user_picks u cw df) as [|r l], (user_picks u cw df') as [|r' l'];
      try reflexivity.
    + destruct N as (N & _). discriminate (N eq_refl).
    + destruct N as (_ & N). discriminate (N eq_refl).
    + now rewrite M.
  - intros cw. unfold weekly_leaderboard.
    assert (P : Permutation (week_picks cw df) (week_picks cw df'))
      by (apply Permutation_filter', H).
    pose proof (Permutation_nil_iff _ _ P) as N.
    pose proof (leaderboard_Permutation _ _ P) as L.
    destruct (week_picks cw df) as [|r l], (week_picks cw df') as [|r' l'];
      try reflexivity.
    + destruct N as (N & _). discriminate (N eq_refl).
    + destruct N as (_ & N). discriminate (N eq_refl).
    + now rewrite L.
  - unfold cumulative_leaderboard.
    pose proof (Permutation_nil_iff _ _ H) as N.
    pose proof (leaderboard_Permutation _ _ H) as L.
    destruct df as [|r l], df' as [|r' l']; try reflexivity.
    + destruct N as (N & _). discriminate (N eq_refl).
    + destruct N as (_ & N). discriminate (N eq_refl).
    + now rewrite L.
Qed.

Lemma statistics_ignore_row_order_witness :
  cumulative_leaderboard
    [Picks.mk "Ma" "1" "2024-01-14" "Game1" "BOS" "BOS";
     Picks.mk "Em" "1" "2024-01-14" "Game1" "NYR" "BOS"]
  = cumulative_leaderboard
      [Picks.mk "Em" "1" "2024-01-14" "Game1" "NYR" "BOS";
       Picks.mk "Ma" "1" "2024-01-14" "Game1" "BOS" "BOS"].
Proof.
  apply (proj2 (proj2 (statistics_ignore_row_order
    [Picks.mk "Ma" "1" "2024-01-14" "Game1" "BOS" "BOS";
     Picks.mk "Em" "1" "2024-01-14" "Game1" "NYR" "BOS"]
    [Picks.mk "Em" "1" "2024-01-14" "Game1" "NYR" "BOS";
     Picks.mk "Ma" "1" "2024-01-14" "Game1" "BOS" "BOS"]
    (perm_swap _ _ [])))).
Defined.

(** X13: a pick saved by one user in one week leaves the weekly accuracy of
    every other (user, week) pair as it was, and leaves the weekly
    leaderboard of every other week as it was. *)
Theorem save_pick_keeps_other_statistics user week date game pick df :
  (forall u cw, (u, cw) <> (user, week) ->
     weekly_accuracy u cw (save_pick user week date game pick df)
     = weekly_accuracy u cw df) /\
  (forall cw, cw <> week ->
     weekly_leaderboard cw (save_pick user week date game pick df)
     = weekly_leaderboard cw df).
Proof.
  split.
  - intros u cw Hne. unfold weekly_accuracy, user_picks.
    rewrite filter_save_pick; [reflexivity | reflexivity |].
    intros r Hm. apply exists_mask_true in Hm. destruct Hm as (Hu & Hw & _).
    apply andb_false_iff.
    destruct (Picks.User r =? u) eqn:E1; [|now left].
    destruct (Picks.Week r =? cw) eqn:E2; [|now right].
    apply String.eqb_eq in E1, E2. exfalso. apply Hne. congruence.
  - intros cw Hne. unfold weekly_leaderboard, week_picks.
    rewrite filter_save_pick; [reflexivity | reflexivity |].
    intros r Hm. apply exists_mask_true in Hm. destruct Hm as (_ & Hw & _).
    apply String.eqb_neq. congruence.
Qed.

Lemma save_pick_keeps_other_statistics_witness :
  weekly_leaderboard "1"
    (save_pick "Em" "2" "2024-01-21" "Game9" "BOS"
       [Picks.mk "Ma" "1" "2024-01-14" "Game1" "BOS" "BOS"])
  = Value [("Ma", 100%float)].
Proof.
  rewrite (proj2 (save_pick_keeps_other_statistics "Em" "2" "2024-01-21"
                    "Game9" "BOS"
                    [Picks.mk "Ma" "1" "2024-01-14" "Game1" "BOS" "BOS"])
             "1" ltac:(discriminate)).
  vm_compute. reflexivity.
Defined.

Lemma count_true_all col :
  count_true col = List.length col <-> forall b, In b col -> b = true.
Proof.
  unfold count_true. induction col as [|b col IH]; simpl; [tauto|].
  pose proof (filter_length_le (fun b => b) col) as L.
  destruct b; simpl.
  - split.
    + intros E b [<- | Hb]; [reflexivity|]. apply IH; [lia | exact Hb].
    + intros H. f_equal. apply IH. intros b Hb. apply H. now right.
  - split; [intros E; lia|]. intros H. discriminate (H false (or_introl eq_refl)).
Qed.

Lemma count_true_none col :
  count_true col = 0 <-> forall b, In b col -> b = false.
Proof.
  unfold count_true. induction col as [|b col IH]; simpl; [tauto|].
  destruct b; simpl.
  - split; [discriminate|]. intros H. discriminate (H true (or_introl eq_refl)).
  - rewrite IH. split.
    + intros H b [<- | Hb]; [reflexivity | now apply H].
    + intros H b Hb. apply H. now right.
Qed.

(** Among the one-decimal values from 0.0 to 100.0 only 100.0 is the
    binary64 number 100 and only 0.0 is the binary64 number 0. *)
Lemma decimal1_endpoints :
  forallb (fun n =>
             Bool.eqb (PrimFloat.Leibniz.eqb (decimal1 (Z.of_nat n)) 100%float)
                      (n =? 1000)%nat
             && Bool.eqb (PrimFloat.Leibniz.eqb (decimal1 (Z.of_nat n)) 0%float)
                         (n =? 0)%nat)
          (seq 0 1001) = true.
Proof. vm_compute. reflexivity. Qed.

Lemma decimal1_endpoint d :
  (0 <= d <= 1000)%Z ->
  (decimal1 d = 100%float <-> d = 1000%Z) /\ (decimal1 d = 0%float <-> d = 0%Z).
Proof.
  intros Hd. pose proof decimal1_endpoints as C.
  rewrite forallb_forall in C.
  specialize (C (Z.to_nat d) ltac:(apply in_seq; lia)).
  rewrite Z2Nat.id in C by lia.
  apply andb_true_iff in C. destruct C as (C1 & C2).
  apply Bool.eqb_prop in C1, C2. split.
  - rewrite <- FloatAxioms.Leibniz.eqb_spec, C1, Nat.eqb_eq. lia.
  - rewrite <- FloatAxioms.Leibniz.eqb_spec, C2, Nat.eqb_eq. lia.
Qed.

(** With at most four hundred picks, 100.0 and 0.0 are shown for a perfect
    and for an all-wrong record only. *)
Lemma accuracy_of_endpoints k n :
  k <= n -> 1 <= n -> n <= 400 ->
  (accuracy_of k n = 100%float <-> k = n) /\
  (accuracy_of k n = 0%float <-> k = 0).
Proof.
  intros Hk H1 H400.
  destruct (accuracy_of_nearest k n Hk H1 H400) as (d & -> & Hn).
  unfold nearest_tenths in Hn.
  assert (Hd : (0 <= d <= 1000)%Z) by nia.
  destruct (decimal1_endpoint d Hd) as (E100 & E0).
  rewrite E100, E0. split; split; intros H; subst; nia.
Qed.

(** X14: with at least one and at most four hundred picks of the user in
    the week, the weekly accuracy shown is 100.0 exactly when every pick is
    correct, and 0.0 exactly when none is. *)
Theorem weekly_accuracy_endpoints username cw df_all :
  user_picks username cw df_all <> [] ->
  List.length (user_picks username cw df_all) <= 400 ->
  (weekly_accuracy username cw df_all = Value 100%float <->
   forall r, In r (user_picks username cw df_all) -> Correct r = true) /\
  (weekly_accuracy username cw df_all = Value 0%float <->
   forall r, In r (user_picks username cw df_all) -> Correct r = false).
Proof.
  intros Hne H400. rewrite (weekly_accuracy_nonempty _ _ _ Hne).
  set (rows := user_picks username cw df_all) in *.
  set (col := map Correct rows).
  assert (Hlen : List.length col = List.length rows) by apply length_map.
  assert (Hpos : 1 <= List.length col)
    by (rewrite Hlen; destruct rows; [contradiction | simpl; lia]).
  destruct (accuracy_of_endpoints (count_true col) (List.length col)
              (count_true_le col) Hpos ltac:(lia)) as (E100 & E0).
  assert (V : forall a b : float, Value a = Value b <-> a = b)
    by (intros a b; split; [now intros [= ->] | now intros ->]).
  rewrite !V, E100, E0, count_true_all, count_true_none.
  split; split; intros H.
  - intros r Hr. apply H. unfold col. now apply in_map.
  - intros b Hb. apply in_map_iff in Hb. destruct Hb as (r & <- & Hr). auto.
  - intros r Hr. apply H. unfold col. now apply in_map.
  - intros b Hb. apply in_map_iff in Hb. destruct Hb as (r & <- & Hr). auto.
Qed.

Lemma weekly_accuracy_endpoints_witness :
  weekly_accuracy "Em" "1"
    [Picks.mk "Em" "1" "2024-01-14" "Game1" "BOS" "BOS";
     Picks.mk "Em" "1" "2024-01-15" "Game2" "TOR" "TOR"] = Value 100%float.
Proof.
  apply (proj1 (weekly_accuracy_endpoints "Em" "1"
    [Picks.mk "Em" "1" "2024-01-14" "Game1" "BOS" "BOS";
     Picks.mk "Em" "1" "2024-01-15" "Game2" "TOR" "TOR"]
    ltac:(discriminate)
    ltac:(vm_compute; repeat constructor))).
  intros r [<- | [<- | []]]; reflexivity.
Defined.

(** ** A run of the page *)

Lemma Forall2_same {A} (R : A -> A -> Prop) l :
  (forall x, R x x) -> Forall2 R l l.
Proof. intros H. induction l; constructor; auto. Qed.

Lemma Forall2_compose {A} (R : A -> A -> Prop) l1 l2 l3 :
  (forall a b c, R a b -> R b c -> R a c) ->
  Forall2 R l1 l2 -> Forall2 R l2 l3 -> Forall2 R l1 l3.
Proof.
  intros T H12. revert l3. induction H12 as [|a b l1 l2 Hab _ IH]; intros l3 H23.
  - inversion H23. constructor.
  - inversion H23 as [|? c ? l3' Hbc H23']; subst. constructor; eauto.
Qed.

Lemma Forall2_loc_set (R : Picks.row -> Picks.row -> Prop) mask f df :
  (forall r, R r r) -> (forall r, mask r = true -> R r (f r)) ->
  Forall2 R df (loc_set mask f df).
Proof.
  intros Hrefl Hf. unfold loc_set. induction df as [|r df IH]; simpl;
    constructor; auto.
  destruct (mask r) eqn:E; auto.
Qed.

Lemma Forall2_Forall_r {A} (R : A -> A -> Prop) (Q : A -> Prop) l l' :
  (forall a b, Q a -> R a b -> Q b) -> Forall2 R l l' -> Forall Q l -> Forall Q l'.
Proof.
  intros H F. induction F as [|a b l l' Hab _ IH]; intros HQ; constructor;
    inversion HQ; subst; eauto.
Qed.

Section Rewrites.

Variable R : Picks.row -> Picks.row -> Prop.
Variable Q : Picks.row -> Prop.
Hypothesis R_refl : forall r, R r r.
Hypothesis R_trans : forall a b c, R a b -> R b c -> R a c.
Hypothesis Q_stable : forall a b, Q a -> R a b -> Q b.

Lemma rewrites_refl df : rewrites R Q df df.
Proof.
  exists df, []. rewrite app_nil_r.
  split; [reflexivity|]. split; [now apply Forall2_same | constructor].
Qed.

Lemma rewrites_trans df1 df2 df3 :
  rewrites R Q df1 df2 -> rewrites R Q df2 df3 -> rewrites R Q df1 df3.
Proof.
  intros (u1 & a1 & -> & F1 & Q1) (u2 & a2 & -> & F2 & Q2).
  apply Forall2_app_inv_l in F2. destruct F2 as (l1 & l2 & F21 & F22 & ->).
  exists l1, (l2 ++ a2). rewrite app_assoc. split; [reflexivity|]. split.
  - now apply Forall2_compose with u1.
  - apply Forall_app. split; [|exact Q2].
    now apply (Forall2_Forall_r R Q a1 l2).
Qed.

Lemma rewrites_save_pick user week date game pick df :
  (forall r, exists_mask user week game r = true ->
             R r (Picks.set_Pick pick r)) ->
  Q (Picks.mk user week date game pick "") ->
  rewrites R Q df (save_pick user week date game pick df).
Proof.
  intros HR HQ. unfold save_pick.
  destruct (existsb (exists_mask user week game) df).
  - exists (loc_set (exists_mask user week game) (Picks.set_Pick pick) df), [].
    rewrite app_nil_r. split; [reflexivity|].
    split; [now apply Forall2_loc_set | constructor].
  - exists df, [Picks.mk user week date game pick ""].
    split; [reflexivity|].
    split; [now apply Forall2_same | now repeat constructor].
Qed.

Lemma rewrites_save_winner game winner df :
  (forall r, (Picks.Game r =? game) = true -> R r (Picks.set_Winner winner r)) ->
  rewrites R Q df (save_winner game winner df).
Proof.
  intros HR. exists (save_winner game winner df), []. rewrite app_nil_r.
  split; [reflexivity|].
  split; [now apply Forall2_loc_set | constructor].
Qed.

Lemma rewrites_fold {A} (f : picks_df -> A -> picks_df) (P : A -> Prop) l :
  (forall df x, P x -> rewrites R Q df (f df x)) ->
  (forall x, In x l -> P x) ->
  forall df, rewrites R Q df (fold_left f l df).
Proof.
  intros Hf. induction l as [|x l IH]; intros HP df; simpl.
  - apply rewrites_refl.
  - apply rewrites_trans with (f df x).
    + apply Hf, HP. now left.
    + apply IH. intros y Hy. apply HP. now right.
Qed.

End Rewrites.

Lemma run_changes_refl user cw games r : run_changes user cw games r r.
Proof. unfold run_changes, same_game_row. auto 10. Qed.

Lemma run_changes_trans user cw games a b c :
  run_changes user cw games a b -> run_changes user cw games b c ->
  run_changes user cw games a c.
Proof.
  unfold run_changes, same_game_row.
  intros ((U1 & W1 & D1 & G1) & P1 & X1) ((U2 & W2 & D2 & G2) & P2 & X2).
  split; [repeat split; congruence|]. split.
  - destruct P2 as [P2 | (Hu & Hw & Hg & Hp)].
    + destruct P1 as [P1 | (Hu & Hw & Hg & Hp)]; [left; congruence|].
      right. repeat split; congruence.
    + right. repeat split; congruence.
  - destruct X2 as [X2 | X2]; [|right; congruence].
    destruct X1 as [X1 | X1]; [left; congruence | now right].
Qed.

Lemma run_adds_stable user cw games a b :
  run_adds user cw games a -> run_changes user cw games a b ->
  run_adds user cw games b.
Proof.
  unfold run_adds, run_changes, same_game_row.
  intros (Hu & Hw & Hg & Hp) ((U & W & D & G) & P & _).
  repeat split; try congruence.
  destruct P as [P | (_ & _ & _ & P)]; congruence.
Qed.

(** What a run does to the sheet, given the week it resolved. *)
Lemma run_steps_rewrite w cw st ws sheet :
  rewrites (run_changes (username w) cw (map Schedule.Game ws))
           (run_adds (username w) cw (map Schedule.Game ws))
    sheet (record_winners w sheet ws (make_picks w cw st ws sheet)).
Proof.
  set (games := map Schedule.Game ws).
  set (R := run_changes (username w) cw games).
  set (Q := run_adds (username w) cw games).
  assert (Rr : forall r, R r r) by (intros; apply run_changes_refl).
  assert (Rt : forall a b c, R a b -> R b c -> R a c)
    by (intros a b c; apply run_changes_trans).
  assert (Qs : forall a b, Q a -> R a b -> Q b)
    by (intros a b; apply run_adds_stable).
  assert (Hgames : forall row, In row ws -> In (Schedule.Game row) games)
    by (intros row Hrow; unfold games; now apply in_map).
  apply (rewrites_trans R Q Rt Qs) with (make_picks w cw st ws sheet).
  - unfold make_picks. destruct st; [|now apply rewrites_refl].
    apply (rewrites_fold R Q Rr Rt Qs _ (fun row => In row ws));
      [|auto].
    intros df row Hrow. cbv zeta.
    destruct (button w (Schedule.Game row)
              && negb (radio w (Schedule.Game row) =? "")) eqn:B;
      [|now apply rewrites_refl].
    apply andb_true_iff in B. destruct B as (_ & B).
    apply negb_true_iff, String.eqb_neq in B.
    apply rewrites_save_pick; [exact Rr| |].
    + intros r Hm. apply exists_mask_true in Hm. destruct Hm as (Hu & Hw & Hg).
      split; [repeat split|]. split; [|now left].
      right. repeat split; auto. rewrite Hg. now apply Hgames.
    + repeat split; auto. simpl. now apply Hgames.
  - unfold record_winners.
    apply (rewrites_fold R Q Rr Rt Qs _ (fun row => In row ws)); [|auto].
    intros df row Hrow. cbv zeta. unfold winner_changed.
    destruct (negb _ && negb _); [|now apply rewrites_refl].
    apply rewrites_save_winner; [exact Rr|].
    intros r Hg. apply String.eqb_eq in Hg.
    split; [repeat split|]. split; [now left|].
    right. rewrite Hg. now apply Hgames.
Qed.

Lemma run_inv today schedule w sheet sheet' :
  run today schedule w sheet = Ok sheet' ->
  exists cw msgs st,
    current_week today schedule = Ok (cw, msgs) /\
    week_status today (week_schedule cw schedule) = Ok st /\
    sheet' = record_winners w sheet (week_schedule cw schedule)
               (make_picks w cw st (week_schedule cw schedule) sheet).
Proof.
  unfold run. destruct (current_week today schedule) as [(cw & msgs)|e];
    [|discriminate].
  destruct (week_status today (week_schedule cw schedule)) as [st|e] eqn:S;
    [|discriminate].
  intros [= <-]. exists cw, msgs, st. repeat split. exact S.
Qed.

(** X16: what a run of the page can change.  No row of the sheet is
    removed or moved: the sheet after the run consists of the rows it had,
    rewritten in place, followed by added rows.  A row keeps its User,
    Week, Date and Game; its Pick changes only if it is a row of the acting
    user, of the current week and of a game of that week's schedule, and
    never to the empty string; its Winner changes only if its game is in
    that week's schedule.  Every added row is a row of the acting user, of
    the current week and of such a game, with a non-empty pick. *)
Theorem run_frame today schedule w sheet sheet' :
  run today schedule w sheet = Ok sheet' ->
  exists cw msgs,
    current_week today schedule = Ok (cw, msgs) /\
    rewrites
      (run_changes (username w) cw
         (map Schedule.Game (week_schedule cw schedule)))
      (run_adds (username w) cw
         (map Schedule.Game (week_schedule cw schedule)))
      sheet sheet'.
Proof.
  intros H. apply run_inv in H. destruct H as (cw & msgs & st & Hcw & _ & ->).
  exists cw, msgs. split; [exact Hcw | apply run_steps_rewrite].
Qed.

Lemma run_frame_witness :
  exists cw msgs,
    current_week (ymd 2024 1 16)
      [Schedule.mk "2" (Some (ymd 2024 1 14)) "2024-01-15" "Game2" "TOR" "MTL"]
    = Ok (cw, msgs) /\
    rewrites
      (run_changes "Em" cw
         (map Schedule.Game
            (week_schedule cw
               [Schedule.mk "2" (Some (ymd 2024 1 14)) "2024-01-15" "Game2"
                  "TOR" "MTL"])))
      (run_adds "Em" cw
         (map Schedule.Game
            (week_schedule cw
               [Schedule.mk "2" (Some (ymd 2024 1 14)) "2024-01-15" "Game2"
                  "TOR" "MTL"])))
      [Picks.mk "Ma" "2" "2024-01-15" "Game2" "MTL" ""]
      [Picks.mk "Ma" "2" "2024-01-15" "Game2" "MTL" "";
       Picks.mk "Em" "2" "2024-01-15" "Game2" "TOR" ""].
Proof.
  apply (run_frame (ymd 2024 1 16)
    [Schedule.mk "2" (Some (ymd 2024 1 14)) "2024-01-15" "Game2" "TOR" "MTL"]
    (mk_widgets "Em" (fun _ => "TOR") (fun _ => true) (fun _ => ""))
    [Picks.mk "Ma" "2" "2024-01-15" "Game2" "MTL" ""]).
  reflexivity.
Defined.

Lemma fold_left_preserves {A B} (P : A -> Prop) (f : A -> B -> A) l :
  (forall a x, P a -> P (f a x)) -> forall a, P a -> P (fold_left f l a).
Proof.
  intros Hf. induction l as [|x l IH]; intros a Ha; simpl; auto.
Qed.

Lemma unique_picks_save_pick user week date game pick df :
  unique_picks df -> unique_picks (save_pick user week date game pick df).
Proof.
  intros Hu u w g. rewrite rows_for_save_pick. specialize (Hu u w g).
  destruct (exists_mask u w g _); lia.
Qed.

Lemma unique_picks_save_winner game winner df :
  unique_picks df -> unique_picks (save_winner game winner df).
Proof. intros Hu u w g. rewrite rows_for_save_winner. apply Hu. Qed.

Lemma unique_picks_run_steps w cw st ws sheet :
  unique_picks sheet ->
  unique_picks (record_winners w sheet ws (make_picks w cw st ws sheet)).
Proof.
  intros Hu. unfold record_winners. apply fold_left_preserves.
  - intros df row Hdf. cbv zeta. unfold winner_changed.
    destruct (negb _ && negb _); [now apply unique_picks_save_winner | exact Hdf].
  - unfold make_picks. destruct st; [|exact Hu].
    apply fold_left_preserves; [|exact Hu].
    intros df row Hdf. cbv zeta.
    destruct (button w (Schedule.Game row) && negb _);
      [now apply unique_picks_save_pick | exact Hdf].
Qed.

Lemma rewrites_Forall (R : Picks.row -> Picks.row -> Prop) (Q P : Picks.row -> Prop)
    df df' :
  (forall a b, P a -> R a b -> P b) -> (forall a, Q a -> P a) ->
  rewrites R Q df df' -> Forall P df -> Forall P df'.
Proof.
  intros HR HQ (updated & added & -> & F & A) HP.
  apply Forall_app. split.
  - now apply (Forall2_Forall_r R P df updated).
  - apply Forall_forall. intros r Hr. apply HQ.
    rewrite Forall_forall in A. now apply A.
Qed.

(** X15: a run of the page keeps the invariants of the picks sheet.  If
    the sheet has at most one row per (User, Week, Game) before the run, it
    has so after it; if no row has an empty pick before, none has after;
    and if every row belongs to one of the users of the selector before, so
    does every row after. *)
Theorem run_keeps_invariants today schedule w sheet sheet' :
  run today schedule w sheet = Ok sheet' ->
  (unique_picks sheet -> unique_picks sheet') /\
  (no_blank_pick sheet -> no_blank_pick sheet') /\
  (In (username w) users ->
   Forall (fun r => In (Picks.User r) users) sheet ->
   Forall (fun r => In (Picks.User r) users) sheet').
Proof.
  intros H. apply run_inv in H. destruct H as (cw & msgs & st & _ & _ & ->).
  split; [apply unique_picks_run_steps|].
  pose proof (run_steps_rewrite w cw st (week_schedule cw schedule) sheet) as F.
  split.
  - unfold no_blank_pick. apply (rewrites_Forall _ _ _ _ _ ) with (3 := F).
    + intros a b Ha (_ & [P | (_ & _ & _ & P)] & _); congruence.
    + intros a (_ & _ & _ & P). exact P.
  - intros Hu. apply (rewrites_Forall _ _ _ _ _ ) with (3 := F).
    + intros a b Ha ((U & _) & _). now rewrite U.
    + intros a (U & _). now rewrite U.
Qed.

Lemma run_keeps_invariants_witness :
  unique_picks
    [Picks.mk "Ma" "2" "2024-01-15" "Game2" "MTL" "";
     Picks.mk "Em" "2" "2024-01-15" "Game2" "TOR" ""].
Proof.
  apply (proj1 (run_keeps_invariants (ymd 2024 1 16)
    [Schedule.mk "2" (Some (ymd 2024 1 14)) "2024-01-15" "Game2" "TOR" "MTL"]
    (mk_widgets "Em" (fun _ => "TOR") (fun _ => true) (fun _ => ""))
    [Picks.mk "Ma" "2" "2024-01-15" "Game2" "MTL" ""]
    [Picks.mk "Ma" "2" "2024-01-15" "Game2" "MTL" "";
     Picks.mk "Em" "2" "2024-01-15" "Game2" "TOR" ""]
    eq_refl)).
  apply (unique_picksb_sound [Picks.mk "Ma" "2" "2024-01-15" "Game2" "MTL" ""]).
  reflexivity.
Defined.

Lemma winner_only_refl r : winner_only r r.
Proof. unfold winner_only. now destruct r. Qed.

Lemma winner_only_trans a b c :
  winner_only a b -> winner_only b c -> winner_only a c.
Proof.
  unfold winner_only, Picks.set_Winner. destruct a, b, c. simpl.
  intros Hab Hbc. inversion Hab. inversion Hbc. subst. reflexivity.
Qed.

Lemma record_winners_winner_only w df_all ws sheet :
  Forall2 winner_only sheet (record_winners w df_all ws sheet).
Proof.
  unfold record_winners. revert sheet.
  induction ws as [|row ws IH]; intros sheet; simpl.
  - apply Forall2_same, winner_only_refl.
  - eapply Forall2_compose; [exact winner_only_trans | | apply IH].
    unfold winner_changed. destruct (negb _ && negb _).
    + apply Forall2_loc_set; [exact winner_only_refl|]. intros r _.
      unfold winner_only. reflexivity.
    + apply Forall2_same, winner_only_refl.
Qed.

(** X17: picks are locked once the week is closed.  When the status of the
    current week is Closed, a run leaves the sheet with the same rows in
    the same order, each differing from what it was in its Winner at most,
    whatever buttons were clicked. *)
Theorem closed_week_keeps_picks today schedule w sheet sheet' cw msgs :
  current_week today schedule = Ok (cw, msgs) ->
  week_status today (week_schedule cw schedule) = Ok Closed ->
  run today schedule w sheet = Ok sheet' ->
  Forall2 winner_only sheet sheet' /\
  map Picks.Pick sheet' = map Picks.Pick sheet.
Proof.
  intros Hcw Hst H. unfold run in H. rewrite Hcw, Hst in H.
  injection H as <-. cbn [make_picks].
  pose proof (record_winners_winner_only w sheet (week_schedule cw schedule)
                sheet) as F.
  split; [exact F|].
  induction F as [|a b l l' Hab _ IH]; [reflexivity|]. simpl.
  rewrite IH. f_equal. unfold winner_only in Hab. now rewrite Hab.
Qed.

Lemma closed_week_keeps_picks_witness :
  map Picks.Pick
    [Picks.mk "Ma" "2" "2024-01-15" "Game2" "MTL" "TOR"]
  = map Picks.Pick [Picks.mk "Ma" "2" "2024-01-15" "Game2" "MTL" ""].
Proof.
  apply (proj2 (closed_week_keeps_picks (ymd 2024 1 30)
    [Schedule.mk "2" (Some (ymd 2024 1 14)) "2024-01-15" "Game2" "TOR" "MTL"]
    (mk_widgets "Em" (fun _ => "MTL") (fun _ => true) (fun _ => "TOR"))
    [Picks.mk "Ma" "2" "2024-01-15" "Game2" "MTL" ""]
    [Picks.mk "Ma" "2" "2024-01-15" "Game2" "MTL" "TOR"]
    "2" [] eq_refl eq_refl eq_refl)).
Defined.

(** X18: on every sheet the page can produce from an empty sheet there is
    at most one row per (User, Week, Game), every row belongs to one of the
    users of the selector and has a non-empty pick, and a row is Correct
    only if its pick equals a winner that was recorded. *)
Theorem reachable_sheet_invariants sheet :
  reachable sheet ->
  unique_picks sheet /\
  no_blank_pick sheet /\
  Forall (fun r => In (Picks.User r) users) sheet /\
  (forall r, In r sheet -> Correct r = true ->
     Picks.Winner r = Picks.Pick r /\ Picks.Winner r <> "").
Proof.
  intros H.
  assert (I : unique_picks sheet /\ no_blank_pick sheet /\
              Forall (fun r => In (Picks.User r) users) sheet).
  { induction H as [|today schedule w sheet sheet' _ IH Hw Hrun].
    - split; [|split; constructor]. intros u wk g. unfold rows_for. simpl. lia.
    - destruct IH as (I1 & I2 & I3).
      apply run_inv in Hrun. destruct Hrun as (cw & msgs & st & _ & _ & ->).
      pose proof (run_steps_rewrite w cw st (week_schedule cw schedule) sheet)
        as F.
      split; [now apply unique_picks_run_steps|]. split.
      + unfold no_blank_pick in *.
        apply (rewrites_Forall _ _ _ _ _ ) with (3 := F); [| |exact I2].
        * intros a b Ha (_ & [P | (_ & _ & _ & P)] & _); congruence.
        * intros a (_ & _ & _ & P). exact P.
      + apply (rewrites_Forall _ _ _ _ _ ) with (3 := F); [| |exact I3].
        * intros a b Ha ((U & _) & _). now rewrite U.
        * intros a (U & _). now rewrite U. }
  destruct I as (I1 & I2 & I3).
  split; [exact I1|]. split; [exact I2|]. split; [exact I3|].
  intros r Hr Hc. unfold Correct in Hc. apply String.eqb_eq in Hc.
  split; [now symmetry|].
  unfold no_blank_pick in I2. rewrite Forall_forall in I2.
  specialize (I2 r Hr). congruence.
Qed.

Lemma reachable_sheet_invariants_witness :
  unique_picks
    [Picks.mk "Em" "2" "2024-01-15" "Game2" "TOR" ""].
Proof.
  apply (proj1 (reachable_sheet_invariants
                  [Picks.mk "Em" "2" "2024-01-15" "Game2" "TOR" ""]
    (reachable_run (ymd 2024 1 16)
       [Schedule.mk "2" (Some (ymd 2024 1 14)) "2024-01-15" "Game2" "TOR" "MTL"]
       (mk_widgets "Em" (fun _ => "TOR") (fun _ => true) (fun _ => ""))
       [] _ reachable_empty (or_introl eq_refl) eq_refl))).
Defined.
